(** * A shallow embedding of the patient record service (src/app.py)

    The service keeps one JSON file, [patients.json], holding a mapping
    from patient ID to a JSON object, and exposes handlers that load the
    whole file, work on the in-memory dictionary and, for the mutating
    handlers, write the whole dictionary back.

    Modelling choices, all stated here once:
    - The content of [patients.json] is the state.  A handler is a function
      from the file content to an outcome (a returned value or a raised
      exception) paired with the file content after the request.
    - A Python [dict] is insertion ordered and [sorted] is stable, so the
      outer mapping is an association list: assignment to an existing key
      keeps its position, assignment to a new key appends.
    - The inner JSON objects are finite maps from field name to JSON value
      (the order of the fields of one record is never observed).
    - JSON numbers are exact rationals.  Python's [int] and [float] are
      collapsed under Python's own numeric equality ([70 == 70.0]); binary
      rounding, infinities and NaN are outside the model.  JSON booleans,
      arrays and nested objects as field values are outside the model too.
    - Pydantic validation is modelled on these values: a [str] field takes a
      string, a [float] field takes a number, an [int] field takes a number
      without fractional part, a [Literal] field takes one of its strings;
      [None] is rejected by every field of [Patient].  Pydantic's parsing of
      numeric strings into numbers is not modelled (such a value is
      rejected).
    - A missing or unreadable file ([load_data] raising) is not modelled. *)

From Stdlib Require Import QArith Qcanon Qround.
From Stdlib Require Import Sorting.Sorted Sorting.Permutation.
From stdpp Require Import gmap strings list fin_maps sorting.

Local Open Scope Z_scope.

(** ** JSON values and Python dictionaries *)

Inductive value : Type :=
  | VNone
  | VNum (q : Qc)
  | VStr (s : string).

#[global] Instance value_eq_dec : EqDecision value.
Proof. solve_decision. Defined.

(** One stored record: a JSON object. *)
Abbreviation record := (gmap string value).

(** The outer dictionary of [patients.json]: keys in insertion order. *)
Abbreviation store := (list (string * gmap string value)).

Section dict.
Context {V : Type}.

(** [d.get(k)] / [d[k]] *)
Fixpoint dict_get (k : string) (d : list (string * V)) : option V :=
  match d with
  | [] => None
  | (k', v) :: d' => if decide (k = k') then Some v else dict_get k d'
  end.

(** [k in d] *)
Definition dict_contains (k : string) (d : list (string * V)) : bool :=
  match dict_get k d with Some _ => true | None => false end.

(** [d[k] = v]: an existing key keeps its place, a new key goes last. *)
Fixpoint dict_set (k : string) (v : V) (d : list (string * V))
  : list (string * V) :=
  match d with
  | [] => [(k, v)]
  | (k', v') :: d' =>
      if decide (k = k') then (k, v) :: d' else (k', v') :: dict_set k v d'
  end.

(** [del d[k]] *)
Definition dict_del (k : string) (d : list (string * V))
  : list (string * V) :=
  filter (λ kv, kv.1 ≠ k) d.

(** [d.values()] *)
Definition dict_values (d : list (string * V)) : list V := d.*2.

(** [d.keys()] *)
Definition dict_keys (d : list (string * V)) : list string := d.*1.
End dict.

(** ** Exceptions and outcomes *)

Inductive exn : Type :=
  | HTTPException (status_code : Z) (detail : string)
  | RequestValidationError   (* FastAPI rejecting a request body: 422 *)
  | ValidationError          (* pydantic, raised inside a handler *)
  | TypeError.               (* Python, comparing unordered values *)

Inductive result (A : Type) : Type :=
  | Return (a : A)
  | Raise (e : exn).
Arguments Return {A} a.
Arguments Raise {A} e.

Record JSONResponse : Type := mkJSONResponse {
  status_code : Z;
  content : string
}.

(** ** The pydantic models *)

Inductive Gender : Type := male | female | other.

Definition Gender_str (g : Gender) : string :=
  match g with male => "male" | female => "female" | other => "other" end.

Module Patient.
Record t : Type := mk {
  id : string;
  name : string;
  city : string;
  age : Z;
  gender : Gender;
  height : Qc;
  weight : Qc
}.
End Patient.

(** A field of [PatientUpdate]: pydantic records which fields the request
    body supplied ([model_fields_set]); a supplied field holds an
    [Optional] value, so it may have been supplied as [null]. *)
Inductive patch_field (A : Type) : Type :=
  | Omitted
  | Supplied (v : option A).
Arguments Omitted {A}.
Arguments Supplied {A} v.

Module PatientUpdate.
Record t : Type := mk {
  name : patch_field string;
  city : patch_field string;
  age : patch_field Z;
  gender : patch_field Gender;
  height : patch_field Qc;
  weight : patch_field Qc
}.
End PatientUpdate.

(** Field validators, on the values the service itself writes and reads
    back: a string for a [str] field, a number for a [float] field, a
    number without fractional part for an [int] field.  Pydantic's lax
    mode accepts more (a numeric string such as ["41"] or ["1.7"] is
    parsed, and a [float] field stores the binary64 value nearest to the
    number it is given); those inputs are outside the model, and the
    properties below that would depend on them are stated for typed
    [Patient] and [PatientUpdate] objects and for records that hold a
    patient's fields in the form the service writes. *)
Definition as_str (v : value) : option string :=
  match v with VStr s => Some s | _ => None end.

Definition as_float (v : value) : option Qc :=
  match v with VNum q => Some q | _ => None end.

Definition as_int (v : value) : option Z :=
  match v with
  | VNum q => if decide (Qden q = 1%positive) then Some (Qnum q) else None
  | _ => None
  end.

Definition as_gender (v : value) : option Gender :=
  match v with
  | VStr s =>
      if decide (s = "male") then Some male
      else if decide (s = "female") then Some female
      else if decide (s = "other") then Some other
      else None
  | _ => None
  end.

Definition check (b : bool) : option unit := if b then Some () else None.

(** The constructor of [Patient] applied to the entries of [d] as keyword
    arguments: every field is required; [age] has [gt=0, lt=120],
    [height] and [weight] have [gt=0]; keys that are not fields of the
    model are ignored. *)
Definition Patient_validate (d : record) : option Patient.t :=
  i ← d !! "id" ≫= as_str;
  n ← d !! "name" ≫= as_str;
  c ← d !! "city" ≫= as_str;
  a ← d !! "age" ≫= as_int;
  _ ← check (bool_decide (0 < a) && bool_decide (a < 120));
  g ← d !! "gender" ≫= as_gender;
  h ← d !! "height" ≫= as_float;
  _ ← check (bool_decide (0 < h)%Qc);
  w ← d !! "weight" ≫= as_float;
  _ ← check (bool_decide (0 < w)%Qc);
  Some (Patient.mk i n c a g h w).

(** The fields of [Patient] as a list of key/value pairs, in declaration
    order.  [bmi] and [verdict] below are functions of the module, not
    members of the class, so they are not among the fields. *)
Definition Patient_items (p : Patient.t) : list (string * value) :=
  [ ("id", VStr (Patient.id p));
    ("name", VStr (Patient.name p));
    ("city", VStr (Patient.city p));
    ("age", VNum (Qc_of_Z (Patient.age p)));
    ("gender", VStr (Gender_str (Patient.gender p)));
    ("height", VNum (Patient.height p));
    ("weight", VNum (Patient.weight p)) ].

(** The [exclude] argument of [model_dump] as the handlers pass it: the
    list [["id"]] in [create_patient], the string ["id"] in
    [update_patient].  A field is left out when Python's [in] finds its
    name in the argument: an element of the list, a substring of the
    string. *)
Inductive container : Type :=
  | PyList (l : list string)
  | PyStr (s : string).

Definition py_in (k : string) (c : container) : bool :=
  match c with
  | PyList l => bool_decide (k ∈ l)
  | PyStr s => match String.index 0 k s with Some _ => true | None => false end
  end.

(** [p.model_dump(exclude=...)] *)
Definition Patient_model_dump (exclude : container) (p : Patient.t)
  : record :=
  list_to_map (filter (λ kv, py_in kv.1 exclude = false) (Patient_items p)).

Definition dump_field {A : Type} (k : string) (enc : A → value)
  (f : patch_field A) : list (string * value) :=
  match f with
  | Omitted => []
  | Supplied None => [(k, VNone)]
  | Supplied (Some a) => [(k, enc a)]
  end.

(** [patient_update.model_dump(exclude_unset=True)] as its [items()]. *)
Definition PatientUpdate_model_dump_exclude_unset (u : PatientUpdate.t)
  : list (string * value) :=
  dump_field "name" VStr (PatientUpdate.name u)
  ++ dump_field "city" VStr (PatientUpdate.city u)
  ++ dump_field "age" (λ a, VNum (Qc_of_Z a)) (PatientUpdate.age u)
  ++ dump_field "gender" (λ g, VStr (Gender_str g)) (PatientUpdate.gender u)
  ++ dump_field "height" VNum (PatientUpdate.height u)
  ++ dump_field "weight" VNum (PatientUpdate.weight u).

(** ** The two module-level functions [bmi] and [verdict]

    In the source both are defined at the top level of the module, after
    the two classes, and no handler refers to them.  The definitions below
    give the derived values the specification asks for: the body of each
    function on exact numbers, with [self.bmi] in [verdict] read as the
    result of [bmi].  They are used only to say what a materialized record
    would hold.  On the code as written [Patient] has no attribute [bmi],
    so [verdict] applied to a [Patient] would stop at [self.bmi]; and on
    binary64 numbers the division and [round] can overflow and do not give
    exact hundredths. *)

(** Python's [round(x, 2)] on an exact number: nearest hundredth, ties to
    the even hundredth. *)
Definition round_half_even (x : Q) : Z :=
  let f := Qfloor x in
  match (x - inject_Z f ?= 1 # 2)%Q with
  | Lt => f
  | Gt => f + 1
  | Eq => if Z.even f then f else f + 1
  end.

Definition py_round2 (x : Qc) : Qc :=
  Q2Qc (inject_Z (round_half_even (x * Q2Qc 100)%Qc) / 100).

Definition bmi (self : Patient.t) : Qc :=
  py_round2 (Patient.weight self
             / (Patient.height self * Patient.height self))%Qc.

Definition verdict (self : Patient.t) : string :=
  if decide (bmi self < Q2Qc (185 # 10))%Qc then "Underweight"
  else if decide (bmi self < Q2Qc 25)%Qc then "Normal"
  else if decide (bmi self < Q2Qc 30)%Qc then "Normal"
  else "Obese".

(** ** Persistence *)

(** [load_data()] returns the content of the file, [save_data(data)]
    replaces it. *)
Definition load_data (file : store) : store := file.
Definition save_data (data : store) : store := data.

(** ** Python's [sorted] *)

(** [a < b] on the values of the model: numbers compare with numbers,
    strings with strings (by code point), anything else raises
    [TypeError]. *)
Definition py_lt (a b : value) : option bool :=
  match a, b with
  | VNum x, VNum y => Some (bool_decide (x < y)%Qc)
  | VStr x, VStr y => Some (String.ltb x y)
  | _, _ => None
  end.

Section sorted.
Context {A : Type} (key : A → value).

(** Insert [x], an element that came before every element of the sorted
    list [l] in the input, keeping the order of equal keys: [x] goes in
    front of the first element that is not smaller. *)
Fixpoint insert_stable (x : A) (l : list A) : option (list A) :=
  match l with
  | [] => Some [x]
  | y :: l' =>
      b ← py_lt (key y) (key x);
      if b : bool then cons y <$> insert_stable x l' else Some (x :: y :: l')
  end.

(** A stable sort that only uses [<] on the keys, as [list.sort] does. *)
Fixpoint stable_sort (l : list A) : option (list A) :=
  match l with
  | [] => Some []
  | x :: l' => s ← stable_sort l'; insert_stable x s
  end.

(** [sorted(l, key=key, reverse=reverse)].  With [reverse=True] CPython
    reverses the list, runs the same stable ascending sort and reverses
    the outcome, so that equal keys keep their original order. *)
Definition sorted (l : list A) (reverse_arg : bool) : option (list A) :=
  if reverse_arg then reverse <$> stable_sort (reverse l) else stable_sort l.
End sorted.

(** ** The handlers

    Each takes the content of [patients.json] and gives the outcome and the
    content of the file afterwards. *)

(** GET / and GET /about answer with a fixed message and read nothing. *)
Definition hello (file : store) : result (string * string) * store :=
  (Return ("Message", "Hello from FAST API Endpoint"), file).

Definition about (file : store) : result (string * string) * store :=
  (Return ("About", "This is the response from About API Endpoint"), file).

Definition view (file : store) : result store * store :=
  let data := load_data file in
  (Return data, file).

Definition view_patient (patient_id : string) (file : store)
  : result record * store :=
  let data := load_data file in
  match dict_get patient_id data with
  | Some r => (Return r, file)
  | None => (Raise (HTTPException 404 "Patient not found"), file)
  end.

Definition valid_feilds : list string := ["height"; "weight"; "bmi"].

(** The key function [lambda x: x.get(sort_by, 0)]. *)
Definition sort_key (sort_by : string) (x : record) : value :=
  default (VNum (Qc_of_Z 0)) (x !! sort_by).

Definition sort_patients (sort_by order : string) (file : store)
  : result (list record) * store :=
  if negb (bool_decide (sort_by ∈ valid_feilds)) then
    (Raise (HTTPException 404
              "Invalid field selected from ['height', 'weight', 'bmi']"),
     file)
  else if negb (bool_decide (order ∈ ["asc"; "desc"])) then
    (Raise (HTTPException 404 "Invalid selction between asc and desc"), file)
  else
    let data := load_data file in
    let sort_order := bool_decide (order = "desc") in
    match sorted (sort_key sort_by) (dict_values data) sort_order with
    | Some sorted_data => (Return sorted_data, file)
    | None => (Raise TypeError, file)
    end.

Definition create_patient (patient : Patient.t) (file : store)
  : result JSONResponse * store :=
  let data := load_data file in
  if dict_contains (Patient.id patient) data then
    (Raise (HTTPException 400 "Patient already exists"), file)
  else
    let data :=
      dict_set (Patient.id patient)
               (Patient_model_dump (PyList ["id"]) patient) data in
    (Return (mkJSONResponse 201 "Patient created successfully"),
     save_data data).

(** POST /create as FastAPI serves it: the request body is validated
    against [Patient] before the handler runs. *)
Definition post_create (body : record) (file : store)
  : result JSONResponse * store :=
  match Patient_validate body with
  | Some patient => create_patient patient file
  | None => (Raise RequestValidationError, file)
  end.

(** The loop [for key, value in updated_patient_info.items(): ...]. *)
Definition merge (existing_patient_info : record)
  (updated_patient_info : list (string * value)) : record :=
  fold_left (λ d kv, <[kv.1 := kv.2]> d) updated_patient_info
            existing_patient_info.

(** [existing_patient_info] is the very object stored in [data], so the
    loop and the assignment of ["id"] change the in-memory [data] as well;
    the file is written only by [save_data], after the merged dictionary
    passed validation. *)
Definition update_patient (patient_id : string)
  (patient_update : PatientUpdate.t) (file : store)
  : result JSONResponse * store :=
  let data := load_data file in
  match dict_get patient_id data with
  | None => (Raise (HTTPException 404 "Patient not found"), file)
  | Some existing_patient_info =>
      let updated_patient_info :=
        PatientUpdate_model_dump_exclude_unset patient_update in
      let existing_patient_info :=
        merge existing_patient_info updated_patient_info in
      let existing_patient_info :=
        <["id" := VStr patient_id]> existing_patient_info in
      let data := dict_set patient_id existing_patient_info data in
      match Patient_validate existing_patient_info with
      | None => (Raise ValidationError, file)
      | Some patient_pydantic_object =>
          let existing_patient_info :=
            Patient_model_dump (PyStr "id") patient_pydantic_object in
          let data := dict_set patient_id existing_patient_info data in
          (Return (mkJSONResponse 200 "Patient details updated successfully"),
           save_data data)
      end
  end.

(** The constraints of [PatientUpdate]: [gt=0] on [age], [height] and
    [weight], applied to a value that is not [None]. *)
Definition PatientUpdate_in_range (u : PatientUpdate.t) : bool :=
  match PatientUpdate.age u with
  | Supplied (Some a) => bool_decide (0 < a)
  | _ => true
  end
  && match PatientUpdate.height u with
     | Supplied (Some h) => bool_decide (0 < h)%Qc
     | _ => true
     end
  && match PatientUpdate.weight u with
     | Supplied (Some w) => bool_decide (0 < w)%Qc
     | _ => true
     end.

(** PUT /edit/{patient_id} as FastAPI serves it: the request body is
    validated against [PatientUpdate] before the handler runs. *)
Definition put_edit (patient_id : string) (patient_update : PatientUpdate.t)
  (file : store) : result JSONResponse * store :=
  if PatientUpdate_in_range patient_update
  then update_patient patient_id patient_update file
  else (Raise RequestValidationError, file).

Definition delete_patient (patient_id : string) (file : store)
  : result JSONResponse * store :=
  let data := load_data file in
  if negb (dict_contains patient_id data) then
    (Raise (HTTPException 404 "Patient not found"), file)
  else
    let data := dict_del patient_id data in
    (Return (mkJSONResponse 200 "Patient deleted successfully"),
     save_data data).

(** ** Requests that write, and the stores they lead to *)

Inductive request : Type :=
  | Create (body : record)
  | Edit (patient_id : string) (patient_update : PatientUpdate.t)
  | Delete (patient_id : string).

Definition handle (req : request) (file : store)
  : result JSONResponse * store :=
  match req with
  | Create body => post_create body file
  | Edit patient_id patient_update =>
      put_edit patient_id patient_update file
  | Delete patient_id => delete_patient patient_id file
  end.

Inductive reachable (file0 : store) : store → Prop :=
  | reachable_here : reachable file0 file0
  | reachable_step file req :
      reachable file0 file → reachable file0 (handle req file).2.

(** ** Predicates of the specification *)

(** The ranges that [Patient] enforces. *)
Definition Patient_in_range (p : Patient.t) : Prop :=
  0 < Patient.age p < 120
  ∧ (0 < Patient.height p)%Qc ∧ (0 < Patient.weight p)%Qc.

(** [d] holds every field of [p]. *)
Definition holds_fields (d : record) (p : Patient.t) : Prop :=
  Forall (λ kv, d !! kv.1 = Some kv.2) (Patient_items p).

(** The entries of a stored record: the fields of [Patient] but [id]. *)
Definition stored_items (p : Patient.t) : list (string * value) :=
  [ ("name", VStr (Patient.name p));
    ("city", VStr (Patient.city p));
    ("age", VNum (Qc_of_Z (Patient.age p)));
    ("gender", VStr (Gender_str (Patient.gender p)));
    ("height", VNum (Patient.height p));
    ("weight", VNum (Patient.weight p)) ].

Definition stored_fields : list string :=
  ["name"; "city"; "age"; "gender"; "height"; "weight"].

(** A stored record within the ranges: an integer age in (0, 120), one of
    the three genders, positive height and weight. *)
Definition valid_record (r : record) : Prop :=
  ∃ (a : Z) (g : Gender) (h w : Qc),
    r !! "age" = Some (VNum (Qc_of_Z a)) ∧ 0 < a < 120
    ∧ r !! "gender" = Some (VStr (Gender_str g))
    ∧ r !! "height" = Some (VNum h) ∧ (0 < h)%Qc
    ∧ r !! "weight" = Some (VNum w) ∧ (0 < w)%Qc.

Definition valid_store (file : store) : Prop :=
  Forall (λ kv, valid_record kv.2) file.

(** Sorting: the keys that are numbers, and the two orders. *)
Definition is_number (v : value) : Prop :=
  match v with VNum _ => True | _ => False end.

Definition number_of (v : value) : Qc :=
  match v with VNum x => x | _ => Qc_of_Z 0 end.

(** Every key of the list is a number. *)
Definition numeric {A : Type} (key : A → value) (l : list A) : Prop :=
  Forall (λ x, is_number (key x)) l.

Definition key_number {A : Type} (key : A → value) (x : A) : Qc :=
  number_of (key x).



Definition ascending {A : Type} (k : A → Qc) (l : list A) : Prop :=
  StronglySorted (λ a b, (k a ≤ k b)%Qc) l.

Definition descending {A : Type} (k : A → Qc) (l : list A) : Prop :=
  StronglySorted (λ a b, (k b ≤ k a)%Qc) l.

(** The elements of [l] whose key is [c], in the order of [l]. *)
Definition with_key {A : Type} (k : A → Qc) (c : Qc) (l : list A) : list A :=
  filter (λ x, k x = c) l.


(** The patch supplies some field as [null]. *)
Definition is_null {A : Type} (f : patch_field A) : bool :=
  match f with Supplied None => true | _ => false end.

Definition PatientUpdate_has_null (u : PatientUpdate.t) : bool :=
  is_null (PatientUpdate.name u) || is_null (PatientUpdate.city u)
  || is_null (PatientUpdate.age u) || is_null (PatientUpdate.gender u)
  || is_null (PatientUpdate.height u) || is_null (PatientUpdate.weight u).

(** The patch that supplies [weight] and nothing else. *)
Definition only_weight (w : Qc) : PatientUpdate.t :=
  PatientUpdate.mk Omitted Omitted Omitted Omitted Omitted (Supplied (Some w)).

(** The patient read back from a stored record, with another weight. *)
Definition with_weight (patient_id : string) (w : Qc) (p : Patient.t)
  : Patient.t :=
  Patient.mk patient_id (Patient.name p) (Patient.city p) (Patient.age p)
             (Patient.gender p) (Patient.height p) w.

(** The keys that are strings. *)
Definition is_string (v : value) : Prop :=
  match v with VStr _ => True | _ => False end.

(** A record as [create_patient] and [update_patient] write it: the six
    fields of a patient within the ranges, and nothing else. *)
Definition written_by_service (r : record) : Prop :=
  ∃ p : Patient.t, Patient_in_range p ∧ r = list_to_map (stored_items p).

(** The patient that a patch without [null] describes: each field comes
    from the patch when it is supplied and from [p] otherwise; the ID is
    the one of the path. *)
Definition supplied_or {A : Type} (f : patch_field A) (old : A) : A :=
  match f with Supplied (Some v) => v | _ => old end.

Definition apply_patch (patient_id : string) (u : PatientUpdate.t)
  (p : Patient.t) : Patient.t :=
  Patient.mk patient_id
    (supplied_or (PatientUpdate.name u) (Patient.name p))
    (supplied_or (PatientUpdate.city u) (Patient.city p))
    (supplied_or (PatientUpdate.age u) (Patient.age p))
    (supplied_or (PatientUpdate.gender u) (Patient.gender p))
    (supplied_or (PatientUpdate.height u) (Patient.height p))
    (supplied_or (PatientUpdate.weight u) (Patient.weight p)).

(** Merge-patch on one field, read off the patch itself: a field the patch
    omits keeps the stored value, a field the patch supplies with a value
    takes that value (a field supplied as [null] is the matter of
    [PatientUpdate_has_null]). *)
Definition merge_patch_field {A : Type} (enc : A → value)
  (f : patch_field A) (before after : option value) : Prop :=
  match f with
  | Omitted => after = before
  | Supplied (Some v) => after = Some (enc v)
  | Supplied None => True
  end.

(** The patch [{}]. *)
Definition empty_patch : PatientUpdate.t :=
  PatientUpdate.mk Omitted Omitted Omitted Omitted Omitted Omitted.

(** ** Sample data *)

Definition q (n : Z) (d : positive) : Qc := Q2Qc (n # d).

Definition patient_P001 : Patient.t :=
  Patient.mk "P001" "Asha" "Pune" 30 female (q 17 10) (Qc_of_Z 70).

Definition patient_P002 : Patient.t :=
  Patient.mk "P002" "Ravi" "Agra" 41 male (q 17 10) (Qc_of_Z 95).

(** The patches [{"weight": 80}], [{"age": 150}] and [{"weight": null}]. *)
Definition patch_weight_80 : PatientUpdate.t :=
  PatientUpdate.mk Omitted Omitted Omitted Omitted Omitted
                   (Supplied (Some (Qc_of_Z 80))).

Definition patch_age_150 : PatientUpdate.t :=
  PatientUpdate.mk Omitted Omitted (Supplied (Some 150)) Omitted Omitted
                   Omitted.

Definition patch_weight_null : PatientUpdate.t :=
  PatientUpdate.mk Omitted Omitted Omitted Omitted Omitted (Supplied None).

(** [patient_P001] after the patch [{"weight": 80}]. *)
Definition patient_P001_80 : Patient.t :=
  Patient.mk "P001" "Asha" "Pune" 30 female (q 17 10) (Qc_of_Z 80).

(** A record of an older file: it carries an [id], a [bmi] and a
    [verdict] of its own besides the six fields. *)
Definition legacy_record : record :=
  <["id" := VStr "P007"]>
    (<["bmi" := VNum (q 2000 100)]>
       (<["verdict" := VStr "Normal"]>
          (list_to_map (stored_items patient_P001)))).

Definition legacy_store : store := [("P001", legacy_record)].

(** A record whose height is a string, and a store that holds it. *)
Definition tall_record : record :=
  <["height" := VStr "tall"]> (list_to_map (stored_items patient_P002)).

Definition mixed_store : store :=
  [("P001", list_to_map (stored_items patient_P001)); ("P002", tall_record)].

(** The patch [{"city": "Delhi", "age": 31}]. *)
Definition patch_city_age : PatientUpdate.t :=
  PatientUpdate.mk Omitted (Supplied (Some "Delhi")) (Supplied (Some 31))
                   Omitted Omitted Omitted.

(** A request body with an age of 0. *)
Definition body_age_0 : record :=
  <["age" := VNum (Qc_of_Z 0)]> (list_to_map (Patient_items patient_P001)).

(** The request body that validates to a patient. *)
Definition body_of (p : Patient.t) : record := list_to_map (Patient_items p).

(** The record the service stores for a patient. *)
Definition record_of (p : Patient.t) : record :=
  Patient_model_dump (PyList ["id"]) p.

Definition store_1 : store := [("P001", record_of patient_P001)].

Definition store_2 : store :=
  [("P001", record_of patient_P001); ("P002", record_of patient_P002)].

(** Three patients; the first two have the same height. *)
Definition patient_P003 : Patient.t :=
  Patient.mk "P003" "Meera" "Kochi" 27 other (q 16 10) (Qc_of_Z 50).

Definition store_3 : store :=
  [("P001", record_of patient_P001); ("P002", record_of patient_P002);
   ("P003", record_of patient_P003)].

(** * Properties *)

(** ** Dictionaries *)

Section dict_facts.
Context {V : Type}.
Implicit Types (d : list (string * V)) (k : string) (v : V).

Lemma dict_contains_true k d :
  dict_contains k d = true ↔ is_Some (dict_get k d).
Proof.
  unfold dict_contains. rewrite is_Some_alt.
  destruct (dict_get k d); naive_solver.
Qed.

Lemma dict_contains_false k d :
  dict_contains k d = false ↔ dict_get k d = None.
Proof. unfold dict_contains. by destruct (dict_get k d). Qed.

Lemma dict_get_set_eq k v d : dict_get k (dict_set k v d) = Some v.
Proof.
  induction d as [|[k' v'] d IH]; simpl.
  - by rewrite decide_True.
  - destruct (decide (k = k')) as [->|Hne]; simpl.
    + by rewrite decide_True.
    + by rewrite decide_False.
Qed.

Lemma dict_get_set_ne k k' v d :
  k ≠ k' → dict_get k' (dict_set k v d) = dict_get k' d.
Proof.
  intros Hne. induction d as [|[k0 v0] d IH]; simpl.
  - by rewrite decide_False.
  - destruct (decide (k = k0)) as [->|Hk]; simpl.
    + by rewrite !decide_False.
    + by rewrite IH.
Qed.

Lemma dict_set_set k v v' d :
  dict_set k v (dict_set k v' d) = dict_set k v d.
Proof.
  induction d as [|[k0 v0] d IH]; simpl.
  - by rewrite decide_True.
  - destruct (decide (k = k0)) as [->|Hne]; simpl.
    + by rewrite decide_True.
    + by rewrite decide_False, IH.
Qed.

Lemma dict_get_del_eq k d : dict_get k (dict_del k d) = None.
Proof.
  unfold dict_del. induction d as [|[k' v'] d IH]; [done|].
  rewrite filter_cons. simpl. destruct (decide (k' ≠ k)) as [Hne|Heq].
  - simpl. by rewrite decide_False.
  - done.
Qed.

Lemma dict_get_del_ne k k' d :
  k ≠ k' → dict_get k' (dict_del k d) = dict_get k' d.
Proof.
  intros Hne. unfold dict_del. induction d as [|[k0 v0] d IH]; [done|].
  rewrite filter_cons. simpl. destruct (decide (k0 ≠ k)) as [Hk|Hk].
  - simpl. by rewrite IH.
  - apply dec_stable in Hk. subst k0. by rewrite decide_False.
Qed.

Lemma dict_get_elem_of k v d : dict_get k d = Some v → (k, v) ∈ d.
Proof.
  induction d as [|[k' v'] d IH]; simpl; [done|].
  destruct (decide (k = k')) as [->|Hne].
  - intros [= ->]. left.
  - intros H. right. by apply IH.
Qed.

Lemma dict_set_elem_of k v d kv :
  kv ∈ dict_set k v d → kv = (k, v) ∨ kv ∈ d.
Proof.
  induction d as [|[k' v'] d IH]; simpl.
  - intros ->%list_elem_of_singleton. by left.
  - destruct (decide (k = k')) as [->|Hne].
    + intros [->|H]%elem_of_cons; [by left|]. right. by right.
    + intros [->|H]%elem_of_cons; [right; left|].
      destruct (IH H) as [->|H']; [by left|]. right. by right.
Qed.

Lemma dict_del_elem_of k d kv : kv ∈ dict_del k d → kv ∈ d.
Proof. unfold dict_del. by intros [_ H]%list_elem_of_filter. Qed.

(** The keys of a dictionary stay pairwise distinct. *)
Lemma dict_keys_set k v d :
  dict_keys (dict_set k v d)
  = if dict_contains k d then dict_keys d else dict_keys d ++ [k].
Proof.
  unfold dict_keys, dict_contains.
  induction d as [|[k' v'] d IH]; csimpl; [done|].
  destruct (decide (k = k')) as [->|Hne]; csimpl; [done|].
  rewrite IH. by destruct (dict_get k d).
Qed.

Lemma dict_get_None_keys k d : dict_get k d = None ↔ k ∉ dict_keys d.
Proof.
  unfold dict_keys. induction d as [|[k' v'] d IH]; csimpl.
  - split; [intros _; apply not_elem_of_nil | done].
  - rewrite not_elem_of_cons. destruct (decide (k = k')) as [->|Hne].
    + split; [done | by intros [? _]].
    + rewrite IH. tauto.
Qed.

Lemma dict_set_NoDup k v d :
  NoDup (dict_keys d) → NoDup (dict_keys (dict_set k v d)).
Proof.
  intros Hd. rewrite dict_keys_set. unfold dict_contains.
  destruct (dict_get k d) eqn:Hk; [done|].
  apply NoDup_app. split_and!; [done| |apply NoDup_singleton].
  intros x Hx ->%list_elem_of_singleton.
  by apply dict_get_None_keys in Hk.
Qed.

Lemma dict_del_NoDup k d :
  NoDup (dict_keys d) → NoDup (dict_keys (dict_del k d)).
Proof.
  unfold dict_keys, dict_del. intros Hd.
  induction d as [|[k' v'] d IH]; [done|].
  rewrite filter_cons. csimpl in *. apply NoDup_cons in Hd as [Hk Hd].
  destruct (decide (k' ≠ k)); [|by apply IH].
  csimpl. apply NoDup_cons. split; [|by apply IH].
  intros Hin. apply Hk. apply list_elem_of_fmap in Hin as (kv & -> & Hin).
  apply list_elem_of_fmap. exists kv. split; [done|].
  by apply list_elem_of_filter in Hin as [_ ?].
Qed.
End dict_facts.

(** ** Validation and serialisation of [Patient] *)

Lemma Qc_of_Z_Qnum (x : Qc) : Qden x = 1%positive → Qc_of_Z (Qnum x) = x.
Proof.
  intros H. apply Qc_is_canon. destruct x as [[n d] c]. simpl in *.
  by subst d.
Qed.

Lemma as_str_Some v s : as_str v = Some s ↔ v = VStr s.
Proof. destruct v; cbn; naive_solver. Qed.

Lemma as_float_Some v x : as_float v = Some x ↔ v = VNum x.
Proof. destruct v; cbn; naive_solver. Qed.

Lemma as_int_Some v a : as_int v = Some a ↔ v = VNum (Qc_of_Z a).
Proof.
  destruct v as [|x|s]; simpl; [naive_solver| |naive_solver].
  destruct (decide (Qden x = 1%positive)) as [Hd|Hd]; split.
  - intros [= <-]. by rewrite Qc_of_Z_Qnum.
  - by intros [= ->].
  - done.
  - intros [= ->]. by destruct Hd.
Qed.

Lemma as_gender_Some v g : as_gender v = Some g ↔ v = VStr (Gender_str g).
Proof.
  destruct v as [|x|s]; simpl; [naive_solver|naive_solver|].
  repeat case_decide; subst; destruct g; simpl; naive_solver.
Qed.

#[local] Arguments as_str : simpl never.
#[local] Arguments as_float : simpl never.
#[local] Arguments as_int : simpl never.
#[local] Arguments as_gender : simpl never.

Lemma Patient_validate_Some d p :
  Patient_validate d = Some p ↔ holds_fields d p ∧ Patient_in_range p.
Proof.
  unfold Patient_validate, holds_fields, Patient_items, Patient_in_range.
  rewrite !Forall_cons, Forall_nil. simpl. split.
  - intros H.
    destruct (d !! "id") as [vi|]; simpl in H; [|done].
    destruct (as_str vi) as [i|] eqn:Hi; simpl in H; [|done].
    destruct (d !! "name") as [vn|]; simpl in H; [|done].
    destruct (as_str vn) as [n|] eqn:Hn; simpl in H; [|done].
    destruct (d !! "city") as [vc|]; simpl in H; [|done].
    destruct (as_str vc) as [c|] eqn:Hc; simpl in H; [|done].
    destruct (d !! "age") as [va|]; simpl in H; [|done].
    destruct (as_int va) as [a|] eqn:Ha; simpl in H; [|done].
    destruct (bool_decide (0 < a)) eqn:Ha0; simpl in H; [|done].
    destruct (bool_decide (a < 120)) eqn:Ha1; simpl in H; [|done].
    destruct (d !! "gender") as [vg|]; simpl in H; [|done].
    destruct (as_gender vg) as [g|] eqn:Hg; simpl in H; [|done].
    destruct (d !! "height") as [vh|]; simpl in H; [|done].
    destruct (as_float vh) as [h|] eqn:Hh; simpl in H; [|done].
    destruct (bool_decide (0 < h)%Qc) eqn:Hh0; simpl in H; [|done].
    destruct (d !! "weight") as [vw|]; simpl in H; [|done].
    destruct (as_float vw) as [w|] eqn:Hw; simpl in H; [|done].
    destruct (bool_decide (0 < w)%Qc) eqn:Hw0; simpl in H; [|done].
    injection H as <-. simpl.
    apply as_str_Some in Hi, Hn, Hc. apply as_int_Some in Ha.
    apply as_gender_Some in Hg. apply as_float_Some in Hh, Hw.
    apply bool_decide_eq_true in Ha0, Ha1, Hh0, Hw0. subst.
    by split_and!.
  - intros [(Hi & Hn & Hc & Ha & Hg & Hh & Hw & _) ((Ha0 & Ha1) & Hh0 & Hw0)].
    rewrite Hi, Hn, Hc, Ha, Hg, Hh, Hw. simpl.
    rewrite !bool_decide_eq_true_2 by done. simpl.
    rewrite (proj2 (as_gender_Some _ _) eq_refl). simpl.
    by destruct p.
Qed.

(** Both spellings of the [exclude] argument leave out exactly [id]. *)
Lemma Patient_model_dump_list p :
  Patient_model_dump (PyList ["id"]) p = list_to_map (stored_items p).
Proof. reflexivity. Qed.

Lemma Patient_model_dump_str p :
  Patient_model_dump (PyStr "id") p = list_to_map (stored_items p).
Proof. reflexivity. Qed.

Lemma stored_items_keys p : (stored_items p).*1 = stored_fields.
Proof. reflexivity. Qed.

Lemma stored_fields_NoDup : NoDup stored_fields.
Proof. apply (bool_decide_unpack _). by vm_compute. Qed.

Lemma stored_items_lookup p k v :
  (k, v) ∈ stored_items p → (list_to_map (stored_items p) : record) !! k = Some v.
Proof.
  intros H. apply elem_of_list_to_map_1; [|done].
  rewrite stored_items_keys. apply stored_fields_NoDup.
Qed.

Lemma stored_items_dom p :
  dom (list_to_map (stored_items p) : record) = list_to_set stored_fields.
Proof. by rewrite dom_list_to_map_L, stored_items_keys. Qed.

(** ** Creating a patient *)

(** C6. A create request whose ID is already a key of the store raises the
    400 "Patient already exists" exception and writes nothing: the file,
    and so the record stored under that ID, is what it was. *)
Theorem create_patient_duplicate_id (file : store) (patient : Patient.t)
    (original : record) :
  dict_get (Patient.id patient) file = Some original →
  create_patient patient file
    = (Raise (HTTPException 400 "Patient already exists"), file)
  ∧ dict_get (Patient.id patient) (create_patient patient file).2
    = Some original.
Proof.
  intros Hin. unfold create_patient, load_data, dict_contains.
  by rewrite Hin.
Qed.

(** C9. A create request that succeeds stores, under the patient's ID, a
    record whose keys are exactly name, city, age, gender, height and
    weight: the ID is the key of the outer mapping and is not repeated in
    the record. *)
Theorem create_patient_stored_fields (file : store) (patient : Patient.t) :
  dict_get (Patient.id patient) file = None →
  ∃ r : record,
    create_patient patient file
      = (Return (mkJSONResponse 201 "Patient created successfully"),
         dict_set (Patient.id patient) r file)
    ∧ dict_get (Patient.id patient) (create_patient patient file).2 = Some r
    ∧ dom r = list_to_set stored_fields
    ∧ r !! "id" = None
    ∧ r = list_to_map (stored_items patient).
Proof.
  intros Hfree. exists (list_to_map (stored_items patient)).
  unfold create_patient, load_data, save_data, dict_contains.
  rewrite Hfree, Patient_model_dump_list. cbv beta iota.
  split_and!; [done|apply dict_get_set_eq|apply stored_items_dom| |done].
  apply not_elem_of_dom. rewrite stored_items_dom.
  apply (bool_decide_unpack _). by vm_compute.
Qed.

(** ** Deleting a patient *)

(** C7. Deleting an ID that is not a key raises 404 and leaves the file as
    it was; deleting an ID that is a key answers 200 and removes that key:
    fetching it afterwards raises 404 and every other ID is fetched as
    before. *)
Theorem delete_patient_spec (file : store) (patient_id : string) :
  (dict_get patient_id file = None →
     delete_patient patient_id file
       = (Raise (HTTPException 404 "Patient not found"), file))
  ∧ (is_Some (dict_get patient_id file) →
     ∃ file',
       delete_patient patient_id file
         = (Return (mkJSONResponse 200 "Patient deleted successfully"), file')
       ∧ view_patient patient_id file'
         = (Raise (HTTPException 404 "Patient not found"), file')
       ∧ (∀ other, other ≠ patient_id →
            view_patient other file' = ((view_patient other file).1, file'))
       ∧ (∀ kv, kv ∈ file' ↔ kv ∈ file ∧ kv.1 ≠ patient_id)).
Proof.
  unfold delete_patient, view_patient, load_data, save_data, dict_contains.
  split.
  - by intros ->.
  - intros [r Hr]. rewrite Hr. simpl. eexists. split; [done|].
    rewrite dict_get_del_eq. split_and!; [done| |].
    + intros other Hne. rewrite dict_get_del_ne by done.
      by destruct (dict_get other file).
    + intros kv. unfold dict_del. by rewrite list_elem_of_filter, (comm and).
Qed.

Lemma create_patient_duplicate_id_witness :
  dict_get (Patient.id patient_P001) store_2 = Some (record_of patient_P001)
  ∧ create_patient patient_P001 store_2
    = (Raise (HTTPException 400 "Patient already exists"), store_2)
  ∧ dict_get (Patient.id patient_P001) (create_patient patient_P001 store_2).2
    = Some (record_of patient_P001).
Proof.
  split; [reflexivity|].
  apply (create_patient_duplicate_id store_2 patient_P001). reflexivity.
Defined.

Lemma create_patient_stored_fields_witness :
  dict_get (Patient.id patient_P002) store_1 = None
  ∧ ∃ r : record,
      create_patient patient_P002 store_1
        = (Return (mkJSONResponse 201 "Patient created successfully"),
           dict_set (Patient.id patient_P002) r store_1)
      ∧ dict_get (Patient.id patient_P002)
          (create_patient patient_P002 store_1).2 = Some r
      ∧ dom r = list_to_set stored_fields
      ∧ r !! "id" = None
      ∧ r = list_to_map (stored_items patient_P002).
Proof.
  split; [reflexivity|].
  apply (create_patient_stored_fields store_1 patient_P002). reflexivity.
Defined.

Lemma delete_patient_spec_witness :
  dict_get "P009" store_2 = None
  ∧ is_Some (dict_get "P001" store_2)
  ∧ delete_patient "P009" store_2
    = (Raise (HTTPException 404 "Patient not found"), store_2)
  ∧ ∃ file',
      delete_patient "P001" store_2
        = (Return (mkJSONResponse 200 "Patient deleted successfully"), file')
      ∧ view_patient "P001" file'
        = (Raise (HTTPException 404 "Patient not found"), file')
      ∧ (∀ other, other ≠ "P001" →
           view_patient other file' = ((view_patient other store_2).1, file'))
      ∧ (∀ kv, kv ∈ file' ↔ kv ∈ store_2 ∧ kv.1 ≠ "P001").
Proof.
  assert (dict_get "P009" store_2 = None) as Hnone by reflexivity.
  assert (is_Some (dict_get "P001" store_2)) as Hsome by (by eexists).
  split; [exact Hnone|]. split; [exact Hsome|]. split.
  - exact (proj1 (delete_patient_spec store_2 "P009") Hnone).
  - exact (proj2 (delete_patient_spec store_2 "P001") Hsome).
Defined.

(** ** Updating a patient *)

Lemma merge_lookup_notin (d : record) (l : list (string * value)) k :
  k ∉ l.*1 → merge d l !! k = d !! k.
Proof.
  unfold merge. revert d. induction l as [|[k' v'] l IH]; intros d Hk.
  - done.
  - csimpl in *. apply not_elem_of_cons in Hk as [Hne Hk].
    rewrite IH by done. by rewrite lookup_insert_ne.
Qed.

Lemma merge_lookup_in (d : record) (l : list (string * value)) k v :
  NoDup l.*1 → (k, v) ∈ l → merge d l !! k = Some v.
Proof.
  revert d. induction l as [|[k' v'] l IH]; intros d Hnd Hin.
  - by apply elem_of_nil in Hin.
  - csimpl in *. apply NoDup_cons in Hnd as [Hk' Hnd].
    apply elem_of_cons in Hin as [[= -> ->]|Hin].
    + change (merge (<[k':=v']> d) l !! k' = Some v').
      rewrite merge_lookup_notin by done. apply lookup_insert_eq.
    + by apply (IH (<[k':=v']> d)).
Qed.

Lemma dump_field_keys {A : Type} k (enc : A → value) f :
  (dump_field k enc f).*1 `sublist_of` [k].
Proof.
  destruct f as [|[a|]]; csimpl.
  - apply sublist_nil_l.
  - done.
  - done.
Qed.

Lemma PatientUpdate_dump_keys u :
  (PatientUpdate_model_dump_exclude_unset u).*1 `sublist_of` stored_fields.
Proof.
  unfold PatientUpdate_model_dump_exclude_unset. rewrite !fmap_app.
  change stored_fields
    with (["name"] ++ ["city"] ++ ["age"] ++ ["gender"] ++ ["height"]
          ++ ["weight"]).
  repeat apply sublist_app; apply dump_field_keys.
Qed.

Lemma PatientUpdate_dump_NoDup u :
  NoDup (PatientUpdate_model_dump_exclude_unset u).*1.
Proof.
  eapply sublist_NoDup; [apply stored_fields_NoDup|].
  apply PatientUpdate_dump_keys.
Qed.

Lemma PatientUpdate_dump_not_id u :
  "id" ∉ (PatientUpdate_model_dump_exclude_unset u).*1.
Proof.
  intros Hin. eapply elem_of_sublist in Hin; [|apply PatientUpdate_dump_keys].
  revert Hin. apply (bool_decide_unpack _). by vm_compute.
Qed.

(** What the loop leaves in the dictionary that is handed to [Patient]. *)
Lemma merged_lookup_supplied (old : record) u pid k v :
  (k, v) ∈ PatientUpdate_model_dump_exclude_unset u →
  (<["id" := VStr pid]>
     (merge old (PatientUpdate_model_dump_exclude_unset u)) : record) !! k
  = Some v.
Proof.
  intros Hin. rewrite lookup_insert_ne.
  - apply merge_lookup_in; [apply PatientUpdate_dump_NoDup|done].
  - intros <-. apply (PatientUpdate_dump_not_id u).
    apply list_elem_of_fmap. by exists ("id", v).
Qed.

Lemma merged_lookup_omitted (old : record) u pid k :
  k ≠ "id" →
  k ∉ (PatientUpdate_model_dump_exclude_unset u).*1 →
  (<["id" := VStr pid]>
     (merge old (PatientUpdate_model_dump_exclude_unset u)) : record) !! k
  = old !! k.
Proof.
  intros Hid Hk. rewrite lookup_insert_ne by done.
  by apply merge_lookup_notin.
Qed.

Lemma holds_fields_stored (d : record) p k :
  holds_fields d p → k ∈ stored_fields →
  d !! k = (list_to_map (stored_items p) : record) !! k.
Proof.
  unfold holds_fields, Patient_items, stored_fields.
  rewrite !Forall_cons. simpl.
  intros (_ & Hn & Hc & Ha & Hg & Hh & Hw & _) Hk.
  repeat (apply elem_of_cons in Hk as [->|Hk]);
    [by rewrite Hn|by rewrite Hc|by rewrite Ha|by rewrite Hg|by rewrite Hh
    |by rewrite Hw|by apply elem_of_nil in Hk].
Qed.

Lemma PatientUpdate_dump_round_trip u k v :
  (k, v) ∈ PatientUpdate_model_dump_exclude_unset u → k ∈ stored_fields.
Proof.
  intros Hin. eapply elem_of_sublist; [|apply PatientUpdate_dump_keys].
  apply list_elem_of_fmap. by exists (k, v).
Qed.

Lemma merge_lookup_ext (d d' : record) (l : list (string * value)) k :
  d !! k = d' !! k → merge d l !! k = merge d' l !! k.
Proof.
  unfold merge. revert d d'. induction l as [|[k' v'] l IH]; intros d d' H.
  - done.
  - simpl. apply IH. destruct (decide (k' = k)) as [->|Hne].
    + by rewrite !lookup_insert_eq.
    + by rewrite !lookup_insert_ne.
Qed.

(** The dictionary handed to [Patient] when a patch without [null] is
    merged into the six fields of [p]. *)
Lemma holds_fields_patched (patient_update : PatientUpdate.t)
    (patient_id : string) (p : Patient.t) :
  PatientUpdate_has_null patient_update = false →
  holds_fields
    (<["id" := VStr patient_id]>
       (merge (list_to_map (stored_items p))
          (PatientUpdate_model_dump_exclude_unset patient_update)))
    (apply_patch patient_id patient_update p).
Proof.
  intros Hnull. destruct patient_update as [n c a g h w].
  unfold PatientUpdate_has_null in Hnull. simpl in Hnull.
  destruct n as [|[?|]]; [| |done];
    (destruct c as [|[?|]]; [| |done]);
    (destruct a as [|[?|]]; [| |done]);
    (destruct g as [|[?|]]; [| |done]);
    (destruct h as [|[?|]]; [| |done]);
    (destruct w as [|[?|]]; [| |done]);
    unfold holds_fields, Patient_items; simpl;
    repeat (apply Forall_cons; split; [reflexivity|]); apply Forall_nil_2.
Qed.

(** The same when the stored record holds the six fields of [p] beside
    other keys. *)
Lemma update_patient_patched (file : store) (patient_id : string)
    (patient_update : PatientUpdate.t) (old : record) (p : Patient.t) :
  dict_get patient_id file = Some old →
  (∀ kv, kv ∈ stored_items p → old !! kv.1 = Some kv.2) →
  PatientUpdate_has_null patient_update = false →
  Patient_in_range (apply_patch patient_id patient_update p) →
  update_patient patient_id patient_update file
  = (Return (mkJSONResponse 200 "Patient details updated successfully"),
     dict_set patient_id
       (list_to_map (stored_items (apply_patch patient_id patient_update p)))
       file).
Proof.
  intros Hold Hsix Hnull Hrange. unfold update_patient, load_data, save_data.
  rewrite Hold.
  rewrite (proj2 (Patient_validate_Some _
                    (apply_patch patient_id patient_update p))).
  - by rewrite dict_set_set.
  - split; [|done].
    pose proof (holds_fields_patched patient_update patient_id p Hnull) as Hf.
    unfold holds_fields in *. rewrite Forall_forall in *.
    intros kv Hin. rewrite <-(Hf kv Hin).
    destruct (decide (kv.1 = "id")) as [->|Hid].
    + by rewrite !lookup_insert_eq.
    + rewrite !lookup_insert_ne by done. apply merge_lookup_ext.
      assert (kv.1 ∈ stored_fields) as Hk.
      { change (Patient_items (apply_patch patient_id patient_update p))
          with (("id", VStr patient_id)
                :: stored_items
                     (apply_patch patient_id patient_update p)) in Hin.
        apply elem_of_cons in Hin as [->|Hin]; [done|].
        rewrite <-(stored_items_keys
                     (apply_patch patient_id patient_update p)).
        apply list_elem_of_fmap. by exists kv. }
      rewrite <-(stored_items_keys p) in Hk.
      apply list_elem_of_fmap in Hk as ([k v] & Hkv & Hin').
      simpl in Hkv. rewrite Hkv.
      rewrite (stored_items_lookup p k v Hin'). exact (Hsix (k, v) Hin').
Qed.

Lemma merge_patch_field_holds {A : Type} (enc : A → value)
    (f : patch_field A) (stored : A) (before after : option value) :
  before = Some (enc stored) →
  after = Some (enc (supplied_or f stored)) →
  merge_patch_field enc f before after.
Proof. destruct f as [|[v|]]; simpl; by intros -> ->. Qed.

(** C3, as the code has it.  For a stored record that holds the six fields
    of a patient as the service writes them, beside whatever other keys,
    and a patch without [null] whose merge is within the ranges, the
    update answers 200 and stores a record in which each field the patch
    supplies holds the supplied value and each of name, city, age, gender,
    height, weight that the patch omits holds the value it held before;
    the record has these six keys only, and no other ID is touched. *)
Theorem update_patient_merge_patch (file : store) (patient_id : string)
    (patient_update : PatientUpdate.t) (old : record) (p : Patient.t) :
  dict_get patient_id file = Some old →
  (∀ kv, kv ∈ stored_items p → old !! kv.1 = Some kv.2) →
  PatientUpdate_has_null patient_update = false →
  Patient_in_range (apply_patch patient_id patient_update p) →
  ∃ (new : record) (file' : store),
    update_patient patient_id patient_update file
      = (Return (mkJSONResponse 200 "Patient details updated successfully"),
         file')
    ∧ dict_get patient_id file' = Some new
    ∧ merge_patch_field VStr (PatientUpdate.name patient_update)
        (old !! "name") (new !! "name")
    ∧ merge_patch_field VStr (PatientUpdate.city patient_update)
        (old !! "city") (new !! "city")
    ∧ merge_patch_field (λ a, VNum (Qc_of_Z a))
        (PatientUpdate.age patient_update) (old !! "age") (new !! "age")
    ∧ merge_patch_field (λ g, VStr (Gender_str g))
        (PatientUpdate.gender patient_update)
        (old !! "gender") (new !! "gender")
    ∧ merge_patch_field VNum (PatientUpdate.height patient_update)
        (old !! "height") (new !! "height")
    ∧ merge_patch_field VNum (PatientUpdate.weight patient_update)
        (old !! "weight") (new !! "weight")
    ∧ dom new = list_to_set stored_fields
    ∧ (∀ other, other ≠ patient_id →
         dict_get other file' = dict_get other file).
Proof.
  intros Hold Hsix Hnull Hrange.
  assert (∀ k v, (k, v) ∈ stored_items p → old !! k = Some v) as Hsix'.
  { intros k v Hin. apply (Hsix (k, v) Hin). }
  pose proof (stored_items_lookup (apply_patch patient_id patient_update p))
    as Hnew.
  exists (list_to_map
            (stored_items (apply_patch patient_id patient_update p))).
  exists (dict_set patient_id
            (list_to_map
               (stored_items (apply_patch patient_id patient_update p)))
            file).
  split; [exact (update_patient_patched _ _ _ old p Hold Hsix Hnull Hrange)|].
  split; [apply dict_get_set_eq|].
  split; [apply (merge_patch_field_holds _ _ (Patient.name p));
          [apply Hsix'|apply Hnew]; left|].
  split; [apply (merge_patch_field_holds _ _ (Patient.city p));
          [apply Hsix'|apply Hnew]; right; left|].
  split; [apply (merge_patch_field_holds _ _ (Patient.age p));
          [apply Hsix'|apply Hnew]; do 2 right; left|].
  split; [apply (merge_patch_field_holds _ _ (Patient.gender p));
          [apply Hsix'|apply Hnew]; do 3 right; left|].
  split; [apply (merge_patch_field_holds _ _ (Patient.height p));
          [apply Hsix'|apply Hnew]; do 4 right; left|].
  split; [apply (merge_patch_field_holds _ _ (Patient.weight p));
          [apply Hsix'|apply Hnew]; do 5 right; left|].
  split; [apply stored_items_dom|].
  intros other Hne. by rewrite dict_get_set_ne.
Qed.

(** C3 as the specification words it fails on two counts.  The record of
    an older file loses the keys that are not fields of [Patient], though
    the patch names none of them; and a patch whose merge fails validation
    overwrites nothing, not even the field it supplies. *)
Lemma update_patient_not_field_by_field :
  (update_patient "P001" patch_weight_80 legacy_store
   = (Return (mkJSONResponse 200 "Patient details updated successfully"),
      [("P001", record_of patient_P001_80)])
   ∧ legacy_record !! "verdict" = Some (VStr "Normal")
   ∧ record_of patient_P001_80 !! "verdict" = None
   ∧ legacy_record !! "id" = Some (VStr "P007")
   ∧ record_of patient_P001_80 !! "id" = None)
  ∧ (update_patient "P001" patch_age_150 store_2
     = (Raise ValidationError, store_2)
     ∧ dict_get "P001" store_2 = Some (record_of patient_P001)
     ∧ record_of patient_P001 !! "age" = Some (VNum (Qc_of_Z 30))).
Proof. split_and!; reflexivity. Qed.

Lemma update_patient_raises (file : store) (patient_id : string)
    (patient_update : PatientUpdate.t) (old : record) :
  dict_get patient_id file = Some old →
  Patient_validate
    (<["id" := VStr patient_id]>
       (merge old (PatientUpdate_model_dump_exclude_unset patient_update)))
    = None →
  update_patient patient_id patient_update file
    = (Raise ValidationError, file).
Proof.
  intros Hold Hval. unfold update_patient, load_data. by rewrite Hold, Hval.
Qed.

(** C4. When the merged dictionary fails validation, the update raises
    and the file is exactly what it was. *)
Theorem update_patient_rejected_no_write (file : store) (patient_id : string)
    (patient_update : PatientUpdate.t) (old : record) :
  dict_get patient_id file = Some old →
  Patient_validate
    (<["id" := VStr patient_id]>
       (merge old (PatientUpdate_model_dump_exclude_unset patient_update)))
    = None →
  update_patient patient_id patient_update file
    = (Raise ValidationError, file)
  ∧ view_patient patient_id (update_patient patient_id patient_update file).2
    = (Return old, file).
Proof.
  intros Hold Hval. rewrite (update_patient_raises _ _ _ old) by done.
  split; [done|]. unfold view_patient, load_data. simpl. by rewrite Hold.
Qed.

(** X10. The patch [{"weight": w}] on a record the service wrote: the
    update succeeds and the stored record differs from the old one in
    [weight] only. *)
Lemma update_patient_only_weight (file : store) (patient_id : string)
    (p : Patient.t) (w : Qc) :
  let old : record := list_to_map (stored_items p) in
  dict_get patient_id file = Some old →
  Patient_in_range p → (0 < w)%Qc →
  update_patient patient_id (only_weight w) file
  = (Return (mkJSONResponse 200 "Patient details updated successfully"),
     dict_set patient_id (<["weight" := VNum w]> old) file).
Proof.
  intros old Hold ([Ha0 Ha1] & Hh & _) Hw.
  unfold update_patient, load_data, save_data.
  rewrite Hold.
  assert (Patient_validate
            (<["id" := VStr patient_id]>
               (merge old
                  (PatientUpdate_model_dump_exclude_unset (only_weight w))))
          = Some (with_weight patient_id w p)) as ->.
  { apply Patient_validate_Some. split.
    - unfold holds_fields, Patient_items. simpl.
      repeat (apply Forall_cons; split; [reflexivity|]). apply Forall_nil_2.
    - unfold Patient_in_range. simpl. by split_and!. }
  by rewrite dict_set_set.
Qed.

Lemma has_null_supplied u :
  PatientUpdate_has_null u = true →
  ∃ k, (k, VNone) ∈ PatientUpdate_model_dump_exclude_unset u.
Proof.
  destruct u as [n c a g h w].
  unfold PatientUpdate_has_null, PatientUpdate_model_dump_exclude_unset.
  simpl. rewrite !orb_true_iff. intros [[[[[H|H]|H]|H]|H]|H].
  - destruct n as [|[?|]]; try done. exists "name". apply elem_of_app.
    left. simpl. left.
  - destruct c as [|[?|]]; try done. exists "city".
    do 1 (apply elem_of_app; right). apply elem_of_app. left. simpl. left.
  - destruct a as [|[?|]]; try done. exists "age".
    do 2 (apply elem_of_app; right). apply elem_of_app. left. simpl. left.
  - destruct g as [|[?|]]; try done. exists "gender".
    do 3 (apply elem_of_app; right). apply elem_of_app. left. simpl. left.
  - destruct h as [|[?|]]; try done. exists "height".
    do 4 (apply elem_of_app; right). apply elem_of_app. left. simpl. left.
  - destruct w as [|[?|]]; try done. exists "weight".
    do 5 (apply elem_of_app; right). simpl. left.
Qed.

Lemma Patient_validate_null (d : record) k :
  k ∈ stored_fields → d !! k = Some VNone → Patient_validate d = None.
Proof.
  intros Hk Hnull. destruct (Patient_validate d) as [p|] eqn:Hval; [|done].
  apply Patient_validate_Some in Hval as [Hf _].
  pose proof (holds_fields_stored d p k Hf Hk) as E. rewrite Hnull in E.
  unfold stored_fields in Hk.
  repeat (apply elem_of_cons in Hk as [->|Hk]);
    try (by vm_compute in E). by apply elem_of_nil in Hk.
Qed.

(** C10. A patch that supplies some field as [null] is not read as leaving
    that field out: the loop writes [None] over the stored value, the
    merged dictionary fails validation, the update raises and the file is
    what it was.  The loop leaves alone the fields the patch omits. *)
Theorem update_patient_explicit_null (file : store) (patient_id : string)
    (patient_update : PatientUpdate.t) (old : record) :
  let supplied := PatientUpdate_model_dump_exclude_unset patient_update in
  dict_get patient_id file = Some old →
  PatientUpdate_has_null patient_update = true →
  (∃ k, (k, VNone) ∈ supplied)
  ∧ (∀ k, (k, VNone) ∈ supplied → merge old supplied !! k = Some VNone)
  ∧ (∀ k, k ∉ supplied.*1 → merge old supplied !! k = old !! k)
  ∧ Patient_validate (<["id" := VStr patient_id]> (merge old supplied)) = None
  ∧ update_patient patient_id patient_update file
    = (Raise ValidationError, file).
Proof.
  intros supplied Hold Hnull.
  destruct (has_null_supplied _ Hnull) as [k0 Hk0]. fold supplied in Hk0.
  assert (Patient_validate (<["id" := VStr patient_id]> (merge old supplied))
          = None) as Hval.
  { apply (Patient_validate_null _ k0).
    - by eapply PatientUpdate_dump_round_trip.
    - by apply merged_lookup_supplied. }
  split_and!.
  - by exists k0.
  - intros k Hk. apply merge_lookup_in; [apply PatientUpdate_dump_NoDup|done].
  - intros k Hk. by apply merge_lookup_notin.
  - done.
  - by apply (update_patient_raises _ _ _ old).
Qed.

Lemma update_patient_merge_patch_witness :
  let old := legacy_record in
  let u := patch_city_age in
  dict_get "P001" legacy_store = Some old
  ∧ (∀ kv, kv ∈ stored_items patient_P001 → old !! kv.1 = Some kv.2)
  ∧ PatientUpdate_has_null u = false
  ∧ Patient_in_range (apply_patch "P001" u patient_P001)
  ∧ ∃ (new : record) (file' : store),
      update_patient "P001" u legacy_store
        = (Return (mkJSONResponse 200 "Patient details updated successfully"),
           file')
      ∧ dict_get "P001" file' = Some new
      ∧ merge_patch_field VStr (PatientUpdate.name u)
          (old !! "name") (new !! "name")
      ∧ merge_patch_field VStr (PatientUpdate.city u)
          (old !! "city") (new !! "city")
      ∧ merge_patch_field (λ a, VNum (Qc_of_Z a))
          (PatientUpdate.age u) (old !! "age") (new !! "age")
      ∧ merge_patch_field (λ g, VStr (Gender_str g))
          (PatientUpdate.gender u) (old !! "gender") (new !! "gender")
      ∧ merge_patch_field VNum (PatientUpdate.height u)
          (old !! "height") (new !! "height")
      ∧ merge_patch_field VNum (PatientUpdate.weight u)
          (old !! "weight") (new !! "weight")
      ∧ dom new = list_to_set stored_fields
      ∧ (∀ other, other ≠ "P001" →
           dict_get other file' = dict_get other legacy_store).
Proof.
  intros old u.
  assert (dict_get "P001" legacy_store = Some old) as H1 by reflexivity.
  assert (∀ kv, kv ∈ stored_items patient_P001 → old !! kv.1 = Some kv.2)
    as H2.
  { intros kv Hin. unfold stored_items in Hin.
    repeat (apply elem_of_cons in Hin as [->|Hin]); try reflexivity.
    by apply elem_of_nil in Hin. }
  assert (PatientUpdate_has_null u = false) as H3 by reflexivity.
  assert (Patient_in_range (apply_patch "P001" u patient_P001)) as H4
    by (by split_and!).
  split; [exact H1|]. split; [exact H2|]. split; [exact H3|].
  split; [exact H4|].
  exact (update_patient_merge_patch legacy_store "P001" u old patient_P001
           H1 H2 H3 H4).
Defined.

Lemma update_patient_rejected_no_write_witness :
  let old := record_of patient_P001 in
  dict_get "P001" store_2 = Some old
  ∧ Patient_validate
      (<["id" := VStr "P001"]>
         (merge old (PatientUpdate_model_dump_exclude_unset patch_age_150)))
    = None
  ∧ update_patient "P001" patch_age_150 store_2
    = (Raise ValidationError, store_2)
  ∧ view_patient "P001" (update_patient "P001" patch_age_150 store_2).2
    = (Return old, store_2).
Proof.
  intros old.
  assert (dict_get "P001" store_2 = Some old) as H1 by reflexivity.
  assert (Patient_validate
            (<["id" := VStr "P001"]>
               (merge old
                  (PatientUpdate_model_dump_exclude_unset patch_age_150)))
          = None) as H2 by (vm_compute; reflexivity).
  split; [exact H1|]. split; [exact H2|].
  exact (update_patient_rejected_no_write store_2 "P001" patch_age_150 old
           H1 H2).
Defined.

Lemma update_patient_explicit_null_witness :
  let supplied := PatientUpdate_model_dump_exclude_unset patch_weight_null in
  let old := record_of patient_P001 in
  dict_get "P001" store_2 = Some old
  ∧ PatientUpdate_has_null patch_weight_null = true
  ∧ (∃ k, (k, VNone) ∈ supplied)
  ∧ (∀ k, (k, VNone) ∈ supplied → merge old supplied !! k = Some VNone)
  ∧ (∀ k, k ∉ supplied.*1 → merge old supplied !! k = old !! k)
  ∧ Patient_validate (<["id" := VStr "P001"]> (merge old supplied)) = None
  ∧ update_patient "P001" patch_weight_null store_2
    = (Raise ValidationError, store_2).
Proof.
  intros supplied old.
  assert (dict_get "P001" store_2 = Some old) as H1 by reflexivity.
  assert (PatientUpdate_has_null patch_weight_null = true) as H2
    by reflexivity.
  split; [exact H1|]. split; [exact H2|].
  exact (update_patient_explicit_null store_2 "P001" patch_weight_null old
           H1 H2).
Defined.

(** ** The ranges are an invariant of the store *)

Lemma valid_record_stored p :
  Patient_in_range p → valid_record (list_to_map (stored_items p)).
Proof.
  intros ([Ha0 Ha1] & Hh & Hw).
  exists (Patient.age p), (Patient.gender p), (Patient.height p),
    (Patient.weight p).
  split_and!; first [assumption | reflexivity].
Qed.

Lemma valid_store_set k r file :
  valid_record r → valid_store file → valid_store (dict_set k r file).
Proof.
  unfold valid_store. rewrite !Forall_forall. intros Hr Hfile kv Hin.
  apply dict_set_elem_of in Hin as [->|Hin]; [done|]. by apply Hfile.
Qed.

Lemma valid_store_del k file :
  valid_store file → valid_store (dict_del k file).
Proof.
  unfold valid_store. rewrite !Forall_forall. intros Hfile kv Hin.
  apply Hfile. by eapply dict_del_elem_of.
Qed.

Lemma create_patient_valid patient file :
  Patient_in_range patient → valid_store file →
  valid_store (create_patient patient file).2.
Proof.
  intros Hp Hfile. unfold create_patient, load_data, save_data.
  destruct (dict_contains _ _); [done|]. simpl.
  apply valid_store_set; [|done]. rewrite Patient_model_dump_list.
  by apply valid_record_stored.
Qed.

Lemma update_patient_valid patient_id patient_update file :
  valid_store file →
  valid_store (update_patient patient_id patient_update file).2.
Proof.
  intros Hfile. unfold update_patient, load_data, save_data.
  destruct (dict_get patient_id file) as [old|]; [|done].
  destruct (Patient_validate _) as [p|] eqn:Hval; [|done]. simpl.
  apply Patient_validate_Some in Hval as [_ Hp]. rewrite dict_set_set.
  apply valid_store_set; [|done]. rewrite Patient_model_dump_str.
  by apply valid_record_stored.
Qed.

Lemma handle_valid req file :
  valid_store file → valid_store (handle req file).2.
Proof.
  intros Hfile. destruct req as [body|patient_id patient_update|patient_id].
  - simpl. unfold post_create.
    destruct (Patient_validate body) as [p|] eqn:Hval; [|done].
    apply Patient_validate_Some in Hval as [_ Hp].
    by apply create_patient_valid.
  - simpl. unfold put_edit.
    destruct (PatientUpdate_in_range patient_update); [|done].
    by apply update_patient_valid.
  - simpl. unfold delete_patient, load_data, save_data.
    destruct (negb _); [done|]. by apply valid_store_del.
Qed.

(** Patient IDs stay unique: no request makes a key appear twice. *)
Lemma handle_unique_ids req file :
  NoDup (dict_keys file) → NoDup (dict_keys (handle req file).2).
Proof.
  intros Hfile. destruct req as [body|patient_id patient_update|patient_id].
  - simpl. unfold post_create, create_patient, load_data, save_data.
    destruct (Patient_validate body) as [p|]; [|done].
    destruct (dict_contains _ _); [done|]. by apply dict_set_NoDup.
  - simpl. unfold put_edit, update_patient, load_data, save_data.
    destruct (PatientUpdate_in_range _); [|done].
    destruct (dict_get patient_id file) as [old|]; [|done].
    destruct (Patient_validate _) as [p|]; [|done].
    by do 2 apply dict_set_NoDup.
  - simpl. unfold delete_patient, load_data, save_data.
    destruct (negb _); [done|]. by apply dict_del_NoDup.
Qed.

(** C5. Starting from a store whose records are all within the ranges,
    every store reached by create, update and delete requests has only
    records with an integer age in (0, 120), one of the three genders and
    positive height and weight. *)
Theorem reachable_valid_store (file0 file : store) :
  valid_store file0 → reachable file0 file →
  valid_store file
  ∧ ∀ patient_id r, dict_get patient_id file = Some r → valid_record r.
Proof.
  intros H0 Hreach.
  assert (valid_store file) as Hfile.
  { induction Hreach as [|file req _ IH]; [done|]. by apply handle_valid. }
  split; [done|]. intros patient_id r Hr.
  unfold valid_store in Hfile. rewrite Forall_forall in Hfile.
  by apply (Hfile (patient_id, r)), dict_get_elem_of.
Qed.

(** ** Python's [sorted] on numeric keys *)

Section sorted_facts.
Context {A : Type} (key : A → value).

#[local] Abbreviation k := (key_number key).
#[local] Abbreviation numeric := (numeric key).

Lemma py_lt_number x y :
  is_number (key x) → is_number (key y) →
  py_lt (key x) (key y) = Some (bool_decide (k x < k y)%Qc).
Proof. unfold key_number. by destruct (key x), (key y). Qed.

Lemma insert_stable_numeric x l :
  is_number (key x) → numeric l →
  ∃ l', insert_stable key x l = Some l'
    ∧ l' ≡ₚ x :: l
    ∧ (ascending k l → ascending k l')
    ∧ ∀ c, with_key k c l' = with_key k c (x :: l).
Proof.
  intros Hx Hl. induction Hl as [|y l Hy Hl IH].
  - exists [x]. split_and!; [done|done| |done].
    intros _. repeat constructor.
  - destruct IH as (l' & Hins & Hperm & Hsort & Hkey). simpl.
    rewrite py_lt_number by done. simpl.
    destruct (bool_decide_reflect (k y < k x)%Qc) as [Hlt|Hge].
    + rewrite Hins. simpl. exists (y :: l'). split_and!.
      * done.
      * rewrite Hperm. apply perm_swap.
      * unfold ascending. intros [Hs Hall]%StronglySorted_inv.
        apply SSorted_cons; [by apply Hsort|].
        rewrite Hperm. apply Forall_cons. split; [|done].
        by apply Qclt_le_weak.
      * intros c. unfold with_key in *.
        rewrite (filter_cons _ y l'), Hkey, !filter_cons.
        destruct (decide (k y = c)) as [Hyc|Hyc];
          destruct (decide (k x = c)) as [Hxc|Hxc]; try done.
        subst c. rewrite Hxc in Hlt. by apply Qclt_not_eq in Hlt.
    + exists (x :: y :: l). split_and!; [done|done| |done].
      unfold ascending. intros Hs. apply SSorted_cons; [done|].
      apply Qcnot_lt_le in Hge. apply Forall_cons. split; [done|].
      apply StronglySorted_inv in Hs as [_ Hall].
      eapply Forall_impl; [exact Hall|]. simpl. intros z Hz.
      by eapply Qcle_trans.
Qed.

Lemma stable_sort_numeric l :
  numeric l →
  ∃ l', stable_sort key l = Some l'
    ∧ l' ≡ₚ l
    ∧ ascending k l'
    ∧ ∀ c, with_key k c l' = with_key k c l.
Proof.
  intros Hl. induction Hl as [|x l Hx Hl IH].
  - exists []. split_and!; [done|done|constructor|done].
  - destruct IH as (s & Hs & Hperm & Hsort & Hkey). simpl. rewrite Hs. simpl.
    assert (numeric s) as Hnum.
    { unfold numeric. by rewrite Hperm. }
    destruct (insert_stable_numeric x s Hx Hnum) as (l' & Hins & Hp & Ho & Hk).
    exists l'. split_and!.
    + done.
    + by rewrite Hp, Hperm.
    + by apply Ho.
    + intros c. rewrite Hk. unfold with_key in *.
      by rewrite !filter_cons, Hkey.
Qed.

Lemma ascending_reverse l : ascending k l → descending k (reverse l).
Proof.
  unfold ascending, descending. intros Hs.
  apply Sorted_StronglySorted.
  - intros a b c Hab Hbc. by eapply Qcle_trans.
  - apply (Sorted_reverse (λ a b, (k a ≤ k b)%Qc)).
    by apply StronglySorted_Sorted.
Qed.

(** The outcome of [sorted] in both directions. *)
Lemma sorted_numeric l :
  numeric l →
  ∃ up down,
    sorted key l false = Some up
    ∧ sorted key l true = Some down
    ∧ up ≡ₚ l ∧ down ≡ₚ l
    ∧ ascending k up ∧ descending k down
    ∧ (∀ c, with_key k c up = with_key k c l)
    ∧ (∀ c, with_key k c down = with_key k c l)
    ∧ (NoDup (k <$> l) → down = reverse up).
Proof.
  intros Hl.
  destruct (stable_sort_numeric l Hl) as (up & Hup & Hpu & Hsu & Hku).
  assert (numeric (reverse l)) as Hl'.
  { unfold numeric. by rewrite reverse_Permutation. }
  destruct (stable_sort_numeric _ Hl') as (dn & Hdn & Hpd & Hsd & Hkd).
  exists up, (reverse dn). unfold sorted. rewrite Hup, Hdn. simpl.
  split_and!; try done.
  - by rewrite reverse_Permutation, Hpd, reverse_Permutation.
  - by apply ascending_reverse.
  - intros c. unfold with_key in *.
    by rewrite filter_reverse, Hkd, filter_reverse, reverse_involutive.
  - intros Hnd. f_equal.
    apply (StronglySorted_unique_strong (λ a b, (k a ≤ k b)%Qc));
      [|done|done|by rewrite Hpd, reverse_Permutation, Hpu].
    intros x1 x2 H1 H2 H12 H21.
    assert (k x1 = k x2) as Hk by (by apply Qcle_antisym).
    rewrite Hpd, reverse_Permutation in H1. rewrite Hpu in H2.
    clear -Hnd H1 H2 Hk. induction l as [|a l IH]; [by apply elem_of_nil in H1|].
    csimpl in Hnd. apply NoDup_cons in Hnd as [Ha Hnd].
    apply elem_of_cons in H1 as [->|H1], H2 as [->|H2].
    + done.
    + destruct Ha. rewrite Hk. apply list_elem_of_fmap. by exists x2.
    + destruct Ha. rewrite <-Hk. apply list_elem_of_fmap. by exists x1.
    + by apply IH.
Qed.
End sorted_facts.

(** ** Sorting the patients *)









(** ** The derived fields *)

(** No record that [create_patient] or [update_patient] writes has a
    [bmi] or a [verdict]. *)
Lemma stored_record_no_derived (p : Patient.t) (exclude : container) :
  exclude = PyList ["id"] ∨ exclude = PyStr "id" →
  Patient_model_dump exclude p !! "bmi" = None
  ∧ Patient_model_dump exclude p !! "verdict" = None.
Proof. by intros [-> | ->]. Qed.

(** C1 fails on the code.  Creating a valid patient in an empty store and
    fetching it, listing or sorting the store, or updating the patient,
    gives a record without [bmi] and without [verdict], while the two
    functions of the module, applied to the same patient, give 24.22 and
    "Normal". *)
Theorem created_record_has_no_bmi :
  let r := record_of patient_P001 in
  let r80 := record_of patient_P001_80 in
  Patient_validate (body_of patient_P001) = Some patient_P001
  ∧ post_create (body_of patient_P001) []
    = (Return (mkJSONResponse 201 "Patient created successfully"),
       [("P001", r)])
  ∧ view_patient "P001" [("P001", r)] = (Return r, [("P001", r)])
  ∧ view [("P001", r)] = (Return [("P001", r)], [("P001", r)])
  ∧ sort_patients "bmi" "asc" [("P001", r)] = (Return [r], [("P001", r)])
  ∧ update_patient "P001" patch_weight_80 [("P001", r)]
    = (Return (mkJSONResponse 200 "Patient details updated successfully"),
       [("P001", r80)])
  ∧ r !! "bmi" = None ∧ r !! "verdict" = None
  ∧ r80 !! "bmi" = None ∧ r80 !! "verdict" = None
  ∧ bmi patient_P001 = q 2422 100
  ∧ verdict patient_P001 = "Normal".
Proof. intros r r80. split_and!; reflexivity. Qed.

Lemma reachable_valid_store_witness :
  let file :=
    (handle (Delete "P002")
       (handle (Edit "P001" patch_weight_80)
          (handle (Create (body_of patient_P003)) store_2).2).2).2 in
  valid_store store_2 ∧ reachable store_2 file
  ∧ valid_store file
  ∧ ∀ patient_id r, dict_get patient_id file = Some r → valid_record r.
Proof.
  intros file.
  assert (valid_store store_2) as H0.
  { apply Forall_cons. split.
    - exists 30, female, (q 17 10), (Qc_of_Z 70).
      split_and!; reflexivity.
    - apply Forall_cons. split; [|apply Forall_nil_2].
      exists 41, male, (q 17 10), (Qc_of_Z 95).
      split_and!; reflexivity. }
  assert (reachable store_2 file) as H1.
  { do 3 apply reachable_step. apply reachable_here. }
  split; [exact H0|]. split; [exact H1|].
  exact (reachable_valid_store store_2 file H0 H1).
Defined.

(** * Further properties of the handlers *)

(** ** More on dictionaries *)

Section dict_more.
Context {V : Type}.
Implicit Types (d : list (string * V)) (k : string) (v : V).

Lemma dict_set_fresh k v d :
  dict_get k d = None → dict_set k v d = d ++ [(k, v)].
Proof.
  induction d as [|[k' v'] d IH]; simpl; [done|].
  destruct (decide (k = k')) as [->|Hne]; [done|].
  intros H. by rewrite IH.
Qed.

Lemma dict_set_same k v d : dict_get k d = Some v → dict_set k v d = d.
Proof.
  induction d as [|[k' v'] d IH]; simpl; [done|].
  destruct (decide (k = k')) as [->|Hne].
  - by intros [= ->].
  - intros H. by rewrite IH.
Qed.

Lemma dict_del_absent k d : dict_get k d = None → dict_del k d = d.
Proof.
  unfold dict_del. induction d as [|[k' v'] d IH]; simpl; [done|].
  destruct (decide (k = k')) as [->|Hne]; [done|].
  intros H. rewrite filter_cons. simpl. rewrite decide_True by done.
  by rewrite IH.
Qed.

Lemma dict_del_set_fresh k v d :
  dict_get k d = None → dict_del k (dict_set k v d) = d.
Proof.
  intros H. rewrite dict_set_fresh by done. unfold dict_del.
  rewrite filter_app, filter_cons, filter_nil. simpl.
  rewrite decide_False by (by intros ?).
  rewrite app_nil_r. by apply dict_del_absent.
Qed.

Lemma dict_keys_set_present k v d :
  is_Some (dict_get k d) → dict_keys (dict_set k v d) = dict_keys d.
Proof.
  intros H. rewrite dict_keys_set.
  by rewrite (proj2 (dict_contains_true k d) H).
Qed.
End dict_more.

(** ** Creating, fetching and deleting in sequence *)

(** X1. The file after a successful create is the old file followed by the
    new entry, so that every record already there keeps its place and its
    content and [view] lists the new record last. *)
Theorem create_patient_appends (file : store) (patient : Patient.t) :
  dict_get (Patient.id patient) file = None →
  (create_patient patient file).2
    = file ++ [(Patient.id patient, list_to_map (stored_items patient))]
  ∧ (view (create_patient patient file).2).1
    = Return (file ++ [(Patient.id patient,
                        list_to_map (stored_items patient))]).
Proof.
  intros Hfree. unfold create_patient, view, load_data, save_data.
  rewrite (proj2 (dict_contains_false _ _) Hfree). simpl.
  by rewrite dict_set_fresh.
Qed.

(** X2. A patient created under a free ID can be fetched back: GET
    /patients/{id} returns the record with the six fields of the patient
    the handler received, each under its name, and no other key. *)
Theorem create_then_fetch (file : store) (patient : Patient.t) :
  dict_get (Patient.id patient) file = None →
  ∃ r : record,
    view_patient (Patient.id patient) (create_patient patient file).2
      = (Return r, (create_patient patient file).2)
    ∧ r !! "name" = Some (VStr (Patient.name patient))
    ∧ r !! "city" = Some (VStr (Patient.city patient))
    ∧ r !! "age" = Some (VNum (Qc_of_Z (Patient.age patient)))
    ∧ r !! "gender" = Some (VStr (Gender_str (Patient.gender patient)))
    ∧ r !! "height" = Some (VNum (Patient.height patient))
    ∧ r !! "weight" = Some (VNum (Patient.weight patient))
    ∧ dom r = list_to_set stored_fields.
Proof.
  intros Hfree. exists (list_to_map (stored_items patient)).
  unfold create_patient, view_patient, load_data, save_data.
  rewrite (proj2 (dict_contains_false _ _) Hfree).
  cbv beta iota zeta. rewrite Patient_model_dump_list.
  change ((Return (mkJSONResponse 201 "Patient created successfully"),
           dict_set (Patient.id patient)
             (list_to_map (stored_items patient)) file).2)
    with (dict_set (Patient.id patient)
            (list_to_map (stored_items patient) : record) file).
  rewrite dict_get_set_eq.
  split; [done|]. do 6 (split; [reflexivity|]). apply stored_items_dom.
Qed.

(** X3. Creating a patient and deleting it again gives back the file as it
    was before the two requests. *)
Theorem create_then_delete (file : store) (patient : Patient.t) :
  dict_get (Patient.id patient) file = None →
  delete_patient (Patient.id patient) (create_patient patient file).2
  = (Return (mkJSONResponse 200 "Patient deleted successfully"), file).
Proof.
  intros Hfree. unfold create_patient, delete_patient, load_data, save_data.
  rewrite (proj2 (dict_contains_false _ _) Hfree). simpl.
  unfold dict_contains. rewrite dict_get_set_eq. simpl.
  by rewrite dict_del_set_fresh.
Qed.

(** X4. The same body sent twice: when the first request creates the
    patient, the second raises the 400 exception and leaves the file as
    the first request wrote it. *)
Theorem create_twice (file : store) (body : record) (p : Patient.t) :
  Patient_validate body = Some p →
  dict_get (Patient.id p) file = None →
  post_create body (post_create body file).2
  = (Raise (HTTPException 400 "Patient already exists"),
     (post_create body file).2).
Proof.
  intros Hval Hfree. unfold post_create. rewrite Hval.
  unfold create_patient at 2 3, load_data, save_data.
  rewrite (proj2 (dict_contains_false _ _) Hfree). simpl.
  unfold create_patient, load_data, dict_contains.
  by rewrite dict_get_set_eq.
Qed.

(** X5. Whatever the file and the ID, a second delete of the same ID raises
    404 and changes nothing. *)
Theorem delete_twice (file : store) (patient_id : string) :
  delete_patient patient_id (delete_patient patient_id file).2
  = (Raise (HTTPException 404 "Patient not found"),
     (delete_patient patient_id file).2).
Proof.
  unfold delete_patient at 2 3, load_data, save_data, dict_contains.
  destruct (dict_get patient_id file) as [r|] eqn:Hget; simpl.
  - unfold delete_patient, load_data, dict_contains.
    by rewrite dict_get_del_eq.
  - unfold delete_patient, load_data, dict_contains. by rewrite Hget.
Qed.

(** X6. An update never adds, removes or moves an ID, whatever the patch
    and whatever the outcome, and never touches the record of another
    ID. *)
Theorem update_patient_keeps_ids (file : store) (patient_id : string)
    (patient_update : PatientUpdate.t) :
  dict_keys (update_patient patient_id patient_update file).2
    = dict_keys file
  ∧ ∀ other, other ≠ patient_id →
      dict_get other (update_patient patient_id patient_update file).2
      = dict_get other file.
Proof.
  unfold update_patient, load_data, save_data.
  destruct (dict_get patient_id file) as [old|] eqn:Hget; [|done].
  destruct (Patient_validate _) as [p|]; [|done]. simpl. split.
  - rewrite dict_set_set. by apply dict_keys_set_present.
  - intros other Hne. by rewrite !dict_get_set_ne.
Qed.

(** ** More on validation and on updates *)

Lemma Qc_of_Z_lt (a b : Z) : a < b → (Qc_of_Z a < Qc_of_Z b)%Qc.
Proof. intros H. unfold Qclt, Qlt. simpl. lia. Qed.

Lemma holds_fields_lookup (d : record) p k :
  holds_fields d p → k ∈ "id" :: stored_fields → is_Some (d !! k).
Proof.
  unfold holds_fields. rewrite Forall_forall. intros H Hk.
  change ("id" :: stored_fields) with (Patient_items p).*1 in Hk.
  apply list_elem_of_fmap in Hk as (kv & -> & Hin).
  rewrite (H kv Hin). by eexists.
Qed.

Lemma holds_fields_again (old : record) u pid p :
  holds_fields
    (<["id" := VStr pid]>
       (merge old (PatientUpdate_model_dump_exclude_unset u))) p →
  holds_fields
    (<["id" := VStr pid]>
       (merge (list_to_map (stored_items p))
          (PatientUpdate_model_dump_exclude_unset u))) p.
Proof.
  unfold holds_fields. rewrite !Forall_forall.
  intros H kv Hin. specialize (H kv Hin).
  change (Patient_items p)
    with (("id", VStr (Patient.id p)) :: stored_items p) in Hin.
  apply elem_of_cons in Hin as [->|Hin].
  - simpl in *. by rewrite lookup_insert_eq in *.
  - assert (kv.1 ∈ stored_fields) as Hk.
    { rewrite <-(stored_items_keys p). apply list_elem_of_fmap. by exists kv. }
    assert (kv.1 ≠ "id") as Hid.
    { intros E. rewrite E in Hk. revert Hk.
      apply (bool_decide_unpack _). exact I. }
    destruct (decide (kv.1 ∈ (PatientUpdate_model_dump_exclude_unset u).*1))
      as [Hs|Hs].
    + apply list_elem_of_fmap in Hs as ([k v] & Hkv & Hs). simpl in Hkv.
      subst k. rewrite (merged_lookup_supplied _ _ _ _ v) in H by done.
      by rewrite (merged_lookup_supplied _ _ _ _ v).
    + rewrite merged_lookup_omitted by done.
      apply stored_items_lookup. by destruct kv.
Qed.

(** X7. An update that succeeds leaves under the ID a record with the six
    stored fields and no other key, whatever keys the record had before:
    an "id", a "bmi" or a "verdict" of an older file are not written
    back. *)
Theorem update_patient_writes_six_fields (file file' : store)
    (patient_id : string) (patient_update : PatientUpdate.t)
    (resp : JSONResponse) :
  update_patient patient_id patient_update file = (Return resp, file') →
  ∃ new : record,
    dict_get patient_id file' = Some new
    ∧ dom new = list_to_set stored_fields
    ∧ written_by_service new.
Proof.
  unfold update_patient, load_data, save_data.
  destruct (dict_get patient_id file) as [old|]; [|done].
  destruct (Patient_validate _) as [p|] eqn:Hval; [|done].
  intros [= _ <-]. exists (list_to_map (stored_items p)).
  rewrite Patient_model_dump_str. apply Patient_validate_Some in Hval as [_ Hp].
  split_and!; [apply dict_get_set_eq|apply stored_items_dom|by exists p].
Qed.

(** X8. An update that succeeds can be sent again: the second request
    succeeds as well and leaves the file as the first one wrote it. *)
Theorem update_patient_twice (file file' : store) (patient_id : string)
    (patient_update : PatientUpdate.t) (resp : JSONResponse) :
  update_patient patient_id patient_update file = (Return resp, file') →
  update_patient patient_id patient_update file' = (Return resp, file').
Proof.
  unfold update_patient, load_data, save_data.
  destruct (dict_get patient_id file) as [old|]; [|done].
  destruct (Patient_validate _) as [p|] eqn:Hval; [|done].
  intros [= <- <-]. rewrite !dict_set_set, dict_get_set_eq.
  rewrite Patient_model_dump_str.
  apply Patient_validate_Some in Hval as [Hf Hp].
  rewrite (proj2 (Patient_validate_Some _ p)).
  - by rewrite !dict_set_set, Patient_model_dump_str.
  - split; [|done]. by apply (holds_fields_again old).
Qed.

(** X9. The patch [{}] sent for a record the service wrote succeeds and
    leaves the file exactly as it was. *)
Theorem update_patient_empty_patch (file : store) (patient_id : string)
    (p : Patient.t) :
  dict_get patient_id file = Some (list_to_map (stored_items p)) →
  Patient_in_range p →
  update_patient patient_id empty_patch file
  = (Return (mkJSONResponse 200 "Patient details updated successfully"),
     file).
Proof.
  intros Hold ([Ha0 Ha1] & Hh & Hw).
  unfold update_patient, load_data, save_data. rewrite Hold.
  rewrite (proj2 (Patient_validate_Some _
                    (with_weight patient_id (Patient.weight p) p))).
  - rewrite dict_set_set. f_equal. by apply dict_set_same.
  - split.
    + unfold holds_fields, Patient_items. simpl.
      repeat (apply Forall_cons; split; [reflexivity|]). apply Forall_nil_2.
    + unfold Patient_in_range. simpl. by split_and!.
Qed.

Lemma dump_age_supplied u a :
  PatientUpdate.age u = Supplied (Some a) →
  ("age", VNum (Qc_of_Z a)) ∈ PatientUpdate_model_dump_exclude_unset u.
Proof.
  intros H. unfold PatientUpdate_model_dump_exclude_unset. rewrite H.
  do 2 (apply elem_of_app; right). apply elem_of_app. left. simpl. left.
Qed.

(** X11. [PatientUpdate] puts no upper bound on [age].  A patch with an age
    of 120 or more passes the validation of the request body, reaches the
    handler and is turned down only when the merged record is validated as
    a [Patient]: the handler raises pydantic's error, not an
    [HTTPException], and writes nothing. *)
Theorem put_edit_age_too_large (file : store) (patient_id : string)
    (patient_update : PatientUpdate.t) (old : record) (a : Z) :
  dict_get patient_id file = Some old →
  PatientUpdate_in_range patient_update = true →
  PatientUpdate.age patient_update = Supplied (Some a) →
  120 ≤ a →
  put_edit patient_id patient_update file = (Raise ValidationError, file).
Proof.
  intros Hold Hrange Hage Ha. unfold put_edit. rewrite Hrange.
  apply (update_patient_raises _ _ _ old); [done|].
  destruct (Patient_validate _) as [p|] eqn:Hval; [|done]. exfalso.
  apply Patient_validate_Some in Hval as [Hf ([_ Hlt] & _)].
  pose proof (holds_fields_stored _ _ "age" Hf) as E.
  rewrite (merged_lookup_supplied _ _ _ _ _ (dump_age_supplied _ _ Hage)) in E.
  specialize (E ltac:(apply (bool_decide_unpack _); exact I)).
  change ((list_to_map (stored_items p) : record) !! "age")
    with (Some (VNum (Qc_of_Z (Patient.age p)))) in E.
  injection E as E. lia.
Qed.

(** X12. POST /create turns down, with the error of request validation and
    without writing, every body in which a field of [Patient] is missing,
    the age is not above 0 and below 120, the height or the weight is not
    above 0, or the gender is not one of the three. *)
Theorem post_create_rejects (file : store) (body : record) :
  (∃ k, k ∈ "id" :: stored_fields ∧ body !! k = None)
  ∨ (∃ x, body !! "age" = Some (VNum x)
          ∧ ((x ≤ Qc_of_Z 0)%Qc ∨ (Qc_of_Z 120 ≤ x)%Qc))
  ∨ (∃ h, body !! "height" = Some (VNum h) ∧ (h ≤ Qc_of_Z 0)%Qc)
  ∨ (∃ w, body !! "weight" = Some (VNum w) ∧ (w ≤ Qc_of_Z 0)%Qc)
  ∨ (∃ g, body !! "gender" = Some (VStr g)
          ∧ g ∉ ["male"; "female"; "other"]) →
  post_create body file = (Raise RequestValidationError, file).
Proof.
  intros Hbad. unfold post_create.
  destruct (Patient_validate body) as [p|] eqn:Hval; [|done]. exfalso.
  apply Patient_validate_Some in Hval as [Hf ([Ha0 Ha1] & Hh & Hw)].
  pose proof (holds_fields_stored _ _ "age" Hf
                ltac:(apply (bool_decide_unpack _); exact I)) as Eage.
  pose proof (holds_fields_stored _ _ "height" Hf
                ltac:(apply (bool_decide_unpack _); exact I)) as Eh.
  pose proof (holds_fields_stored _ _ "weight" Hf
                ltac:(apply (bool_decide_unpack _); exact I)) as Ew.
  pose proof (holds_fields_stored _ _ "gender" Hf
                ltac:(apply (bool_decide_unpack _); exact I)) as Eg.
  change ((list_to_map (stored_items p) : record) !! "age")
    with (Some (VNum (Qc_of_Z (Patient.age p)))) in Eage.
  change ((list_to_map (stored_items p) : record) !! "height")
    with (Some (VNum (Patient.height p))) in Eh.
  change ((list_to_map (stored_items p) : record) !! "weight")
    with (Some (VNum (Patient.weight p))) in Ew.
  change ((list_to_map (stored_items p) : record) !! "gender")
    with (Some (VStr (Gender_str (Patient.gender p)))) in Eg.
  destruct Hbad as [(k & Hk & Hnone)|[(x & Hx & Hr)|[(h & Hx & Hr)
                   |[(w & Hx & Hr)|(g & Hx & Hg)]]]].
  - destruct (holds_fields_lookup _ _ _ Hf Hk) as [v Hv]. congruence.
  - rewrite Hx in Eage. injection Eage as ->. destruct Hr as [Hr|Hr].
    + apply Qcle_not_lt in Hr. apply Hr. by apply Qc_of_Z_lt.
    + apply Qcle_not_lt in Hr. apply Hr. by apply Qc_of_Z_lt.
  - rewrite Hx in Eh. injection Eh as ->. by apply Qcle_not_lt in Hr.
  - rewrite Hx in Ew. injection Ew as ->. by apply Qcle_not_lt in Hr.
  - rewrite Hx in Eg. injection Eg as ->. apply Hg.
    destruct (Patient.gender p); apply (bool_decide_unpack _); exact I.
Qed.

(** ** More on sorting *)

Section sorted_more.
Context {A : Type} (key : A → value).

Lemma insert_stable_Permutation x l l' :
  insert_stable key x l = Some l' → l' ≡ₚ x :: l.
Proof.
  revert l'. induction l as [|y l IH]; intros l'; simpl.
  - by intros [= <-].
  - destruct (py_lt (key y) (key x)) as [[]|]; simpl; [|by intros [= <-]|done].
    destruct (insert_stable key x l) as [s|]; simpl; [|done].
    intros [= <-]. rewrite (IH s) by done. apply perm_swap.
Qed.

Lemma stable_sort_Permutation l s : stable_sort key l = Some s → s ≡ₚ l.
Proof.
  revert s. induction l as [|x l IH]; intros s; simpl.
  - by intros [= <-].
  - destruct (stable_sort key l) as [s'|]; simpl; [|done].
    intros H%insert_stable_Permutation. by rewrite H, (IH s').
Qed.

Lemma py_lt_Some_kind a b :
  is_Some (py_lt a b) →
  (is_number a ∧ is_number b) ∨ (is_string a ∧ is_string b).
Proof. destruct a, b; simpl; intros [? ?]; naive_solver. Qed.

Lemma insert_stable_head x y l l' :
  insert_stable key x (y :: l) = Some l' → is_Some (py_lt (key y) (key x)).
Proof. simpl. destruct (py_lt (key y) (key x)); [by eexists|done]. Qed.

(** A sort of two or more elements that does not raise has compared
    numbers only, or strings only. *)
Lemma stable_sort_same_kind l s :
  stable_sort key l = Some s → (2 ≤ length l)%nat →
  numeric key l ∨ Forall (λ x, is_string (key x)) l.
Proof.
  revert s. induction l as [|x l IH]; intros s; simpl; [lia|].
  destruct (stable_sort key l) as [s'|] eqn:Hs'; simpl; [|done].
  intros Hins Hlen.
  pose proof (stable_sort_Permutation _ _ Hs') as Hperm.
  destruct s' as [|h t].
  { apply Permutation_nil_l in Hperm. subst l. simpl in Hlen. lia. }
  assert (h ∈ l) as Hh by (rewrite <-Hperm; left).
  apply insert_stable_head, py_lt_Some_kind in Hins.
  destruct l as [|y [|z l]].
  - by apply elem_of_nil in Hh.
  - apply list_elem_of_singleton in Hh as ->. unfold numeric.
    destruct Hins as [[Hy Hx]|[Hy Hx]]; [left|right];
      by repeat constructor.
  - destruct (IH _ eq_refl ltac:(simpl; lia)) as [Hall|Hall].
    + left. apply Forall_cons. split; [|done].
      unfold numeric in Hall. rewrite Forall_forall in Hall.
      specialize (Hall h Hh). destruct Hins as [[_ ?]|[Hstr _]]; [done|].
      by destruct (key h).
    + right. apply Forall_cons. split; [|done].
      rewrite Forall_forall in Hall.
      specialize (Hall h Hh). destruct Hins as [[Hnum _]|[_ ?]]; [|done].
      by destruct (key h).
Qed.

Lemma sorted_same_kind l out reverse_arg :
  sorted key l reverse_arg = Some out → (2 ≤ length l)%nat →
  numeric key l ∨ Forall (λ x, is_string (key x)) l.
Proof.
  unfold sorted. destruct reverse_arg.
  - destruct (stable_sort key (reverse l)) as [s|] eqn:Hs; [|done].
    intros _ Hlen.
    destruct (stable_sort_same_kind _ _ Hs) as [H|H].
    + by rewrite length_reverse.
    + left. unfold numeric in *. by rewrite reverse_Permutation in H.
    + right. by rewrite reverse_Permutation in H.
  - intros Hs Hlen. by eapply stable_sort_same_kind.
Qed.

Lemma filter_all (P : A → Prop) `{∀ x, Decision (P x)} l :
  Forall P l → filter P l = l.
Proof.
  induction 1 as [|x l Hx Hl IH]; [done|].
  by rewrite filter_cons, decide_True, IH.
Qed.

(** When every key is the same number, [sorted] gives the list back in
    both directions. *)
Lemma sorted_constant_key l c :
  Forall (λ x, key x = VNum c) l →
  sorted key l false = Some l ∧ sorted key l true = Some l.
Proof.
  intros Hc.
  assert (numeric key l) as Hnum.
  { unfold numeric. eapply Forall_impl; [exact Hc|].
    simpl. by intros x ->. }
  assert (Forall (λ x, key_number key x = c) l) as Hk.
  { eapply Forall_impl; [exact Hc|]. simpl. intros x Hx.
    unfold key_number. by rewrite Hx. }
  destruct (sorted_numeric key l Hnum)
    as (up & down & Hup & Hdown & Hpu & Hpd & _ & _ & Hku & Hkd & _).
  specialize (Hku c). specialize (Hkd c). unfold with_key in *.
  rewrite (filter_all _ l Hk) in Hku, Hkd.
  rewrite filter_all in Hku by (by rewrite Hpu).
  rewrite filter_all in Hkd by (by rewrite Hpd).
  by subst.
Qed.
End sorted_more.

(** X13. GET /sort never writes.  A field outside height, weight, bmi raises
    the 404 about the field, also when the order is wrong as well; a valid
    field with an order outside asc, desc raises the 404 about the order;
    a valid field and order never raise an [HTTPException]. *)
Theorem sort_patients_bad_query (file : store) (sort_by order : string) :
  (sort_patients sort_by order file).2 = file
  ∧ (sort_by ∉ valid_feilds →
     (sort_patients sort_by order file).1
     = Raise (HTTPException 404
                "Invalid field selected from ['height', 'weight', 'bmi']"))
  ∧ (sort_by ∈ valid_feilds → order ∉ ["asc"; "desc"] →
     (sort_patients sort_by order file).1
     = Raise (HTTPException 404 "Invalid selction between asc and desc"))
  ∧ (sort_by ∈ valid_feilds → order ∈ ["asc"; "desc"] →
     ∀ code detail,
       (sort_patients sort_by order file).1
       ≠ Raise (HTTPException code detail)).
Proof.
  unfold sort_patients, load_data.
  destruct (bool_decide_reflect (sort_by ∈ valid_feilds)) as [Hf|Hf];
    destruct (bool_decide_reflect (order ∈ ["asc"; "desc"])) as [Ho|Ho];
    simpl; try (by split_and!).
  destruct (sorted _ _ _); by split_and!.
Qed.

(** X14. With two or more records in the store, a valid sort request whose
    keys are neither all numbers nor all strings (a string beside a number
    or a missing field, or a [null]) raises [TypeError] and writes
    nothing. *)
Theorem sort_patients_type_error (file : store) (sort_by order : string) :
  sort_by ∈ valid_feilds → order ∈ ["asc"; "desc"] →
  (2 ≤ length file)%nat →
  (∃ x, x ∈ dict_values file ∧ ¬ is_number (sort_key sort_by x)) →
  (∃ y, y ∈ dict_values file ∧ ¬ is_string (sort_key sort_by y)) →
  sort_patients sort_by order file = (Raise TypeError, file).
Proof.
  intros Hf Ho Hlen (x & Hx & Hnx) (y & Hy & Hny).
  unfold sort_patients, load_data.
  rewrite (bool_decide_eq_true_2 _ Hf), (bool_decide_eq_true_2 _ Ho). simpl.
  destruct (sorted _ _ _) as [out|] eqn:Hs; [|done]. exfalso.
  apply sorted_same_kind in Hs as [Hall|Hall].
  - unfold numeric in Hall. rewrite Forall_forall in Hall. by apply Hnx, Hall.
  - rewrite Forall_forall in Hall. by apply Hny, Hall.
  - unfold dict_values. by rewrite length_fmap.
Qed.

(** X15. When no record of the store has the sort field, as is the case for
    bmi in every record the service writes, both orders answer with the
    records in the order of the store. *)
Theorem sort_patients_missing_field (file : store) (sort_by order : string) :
  sort_by ∈ valid_feilds → order ∈ ["asc"; "desc"] →
  (∀ r : record, r ∈ dict_values file → r !! sort_by = None) →
  sort_patients sort_by order file = (Return (dict_values file), file).
Proof.
  intros Hf Ho Hmiss. unfold sort_patients, load_data.
  rewrite (bool_decide_eq_true_2 _ Hf), (bool_decide_eq_true_2 _ Ho). simpl.
  destruct (sorted_constant_key (sort_key sort_by) (dict_values file)
              (Qc_of_Z 0)) as [Hup Hdown].
  { apply Forall_forall. intros r Hr. unfold sort_key.
    by rewrite (Hmiss r Hr). }
  destruct (bool_decide (order = "desc")); by rewrite ?Hup, ?Hdown.
Qed.

(** ** The shape of the records the service writes *)

Lemma handle_written req file :
  Forall (λ kv, written_by_service kv.2) file →
  Forall (λ kv, written_by_service kv.2) (handle req file).2.
Proof.
  intros Hfile.
  assert (∀ k (p : Patient.t) (d : store),
            Patient_in_range p →
            Forall (λ kv, written_by_service kv.2) d →
            Forall (λ kv, written_by_service kv.2)
                   (dict_set k (list_to_map (stored_items p)) d)) as Hset.
  { intros k p d Hp Hd. rewrite Forall_forall in *. intros kv Hin.
    apply dict_set_elem_of in Hin as [->|Hin]; [by exists p|by apply Hd]. }
  destruct req as [body|patient_id patient_update|patient_id]; simpl.
  - unfold post_create, create_patient, load_data, save_data.
    destruct (Patient_validate body) as [p|] eqn:Hval; [|done].
    destruct (dict_contains _ _); [done|]. simpl.
    apply Patient_validate_Some in Hval as [_ Hp]. by apply Hset.
  - unfold put_edit, update_patient, load_data, save_data.
    destruct (PatientUpdate_in_range _); [|done].
    destruct (dict_get patient_id file) as [old|]; [|done].
    destruct (Patient_validate _) as [p|] eqn:Hval; [|done]. simpl.
    apply Patient_validate_Some in Hval as [_ Hp].
    rewrite dict_set_set. by apply Hset.
  - unfold delete_patient, load_data, save_data.
    destruct (negb _); [done|]. simpl.
    rewrite Forall_forall in *. intros kv Hin.
    by apply Hfile, (dict_del_elem_of patient_id).
Qed.

Lemma reachable_written file :
  reachable [] file → Forall (λ kv, written_by_service kv.2) file.
Proof.
  induction 1 as [|file req _ IH]; [by apply Forall_nil_2|].
  by apply handle_written.
Qed.

(** X16. Every record of a file that the service built up from the empty
    file, by whatever create, update and delete requests, is the six
    fields of a patient within the ranges and nothing else: no record ever
    holds a [bmi], a [verdict] or an [id]. *)
Theorem reachable_from_empty_shape (file : store) (patient_id : string)
    (r : record) :
  reachable [] file → dict_get patient_id file = Some r →
  written_by_service r
  ∧ dom r = list_to_set stored_fields
  ∧ r !! "bmi" = None ∧ r !! "verdict" = None ∧ r !! "id" = None.
Proof.
  intros Hreach Hget. apply reachable_written in Hreach.
  rewrite Forall_forall in Hreach.
  destruct (Hreach _ (dict_get_elem_of _ _ _ Hget)) as (p & Hp & E).
  simpl in E. subst r.
  split; [by exists p|]. split; [apply stored_items_dom|]. by split_and!.
Qed.

(** X17. On a file that the service built up from the empty file, sorting
    by bmi orders nothing: both orders answer with the records in the
    order of the file. *)
Theorem sort_by_bmi_is_stored_order (file : store) (order : string) :
  reachable [] file → order ∈ ["asc"; "desc"] →
  sort_patients "bmi" order file = (Return (dict_values file), file).
Proof.
  intros Hreach Ho. apply reachable_written in Hreach.
  unfold sort_patients, load_data.
  rewrite (bool_decide_eq_true_2 _ Ho).
  change (bool_decide ("bmi" ∈ valid_feilds)) with true. simpl.
  destruct (sorted_constant_key (sort_key "bmi") (dict_values file)
              (Qc_of_Z 0)) as [Hup Hdown].
  { unfold dict_values. apply Forall_fmap.
    eapply Forall_impl; [exact Hreach|]. simpl.
    by intros kv (p & _ & ->). }
  destruct (bool_decide (order = "desc")); by rewrite ?Hup, ?Hdown.
Qed.

(** ** Patches that succeed *)

(** X21. A patch without [null] sent for a record the service wrote
    succeeds whenever the patient it describes is within the ranges, and
    the record stored afterwards is that patient's: the supplied fields
    are replaced, the others kept. *)
Theorem update_patient_applies_patch (file : store) (patient_id : string)
    (patient_update : PatientUpdate.t) (p : Patient.t) :
  dict_get patient_id file = Some (list_to_map (stored_items p)) →
  PatientUpdate_has_null patient_update = false →
  Patient_in_range (apply_patch patient_id patient_update p) →
  update_patient patient_id patient_update file
  = (Return (mkJSONResponse 200 "Patient details updated successfully"),
     dict_set patient_id
       (list_to_map (stored_items (apply_patch patient_id patient_update p)))
       file).
Proof.
  intros Hold Hnull Hrange. unfold update_patient, load_data, save_data.
  rewrite Hold.
  rewrite (proj2 (Patient_validate_Some _
                    (apply_patch patient_id patient_update p))).
  - by rewrite dict_set_set.
  - split; [|done]. clear Hrange Hold.
    destruct patient_update as [n c a g h w].
    unfold PatientUpdate_has_null in Hnull. simpl in Hnull.
    destruct n as [|[?|]]; [| |done];
      (destruct c as [|[?|]]; [| |done]);
      (destruct a as [|[?|]]; [| |done]);
      (destruct g as [|[?|]]; [| |done]);
      (destruct h as [|[?|]]; [| |done]);
      (destruct w as [|[?|]]; [| |done]);
      unfold holds_fields, Patient_items; simpl;
      repeat (apply Forall_cons; split; [reflexivity|]); apply Forall_nil_2.
Qed.

(** ** Instances on the sample data *)

Lemma create_patient_appends_witness :
  dict_get (Patient.id patient_P002) store_1 = None
  ∧ (create_patient patient_P002 store_1).2
    = store_1 ++ [(Patient.id patient_P002,
                   list_to_map (stored_items patient_P002))]
  ∧ (view (create_patient patient_P002 store_1).2).1
    = Return (store_1 ++ [(Patient.id patient_P002,
                           list_to_map (stored_items patient_P002))]).
Proof.
  split; [reflexivity|].
  exact (create_patient_appends store_1 patient_P002 eq_refl).
Defined.

Lemma create_then_fetch_witness :
  let patient := patient_P002 in
  dict_get (Patient.id patient) store_1 = None
  ∧ ∃ r : record,
      view_patient (Patient.id patient) (create_patient patient store_1).2
        = (Return r, (create_patient patient store_1).2)
      ∧ r !! "name" = Some (VStr (Patient.name patient))
      ∧ r !! "city" = Some (VStr (Patient.city patient))
      ∧ r !! "age" = Some (VNum (Qc_of_Z (Patient.age patient)))
      ∧ r !! "gender" = Some (VStr (Gender_str (Patient.gender patient)))
      ∧ r !! "height" = Some (VNum (Patient.height patient))
      ∧ r !! "weight" = Some (VNum (Patient.weight patient))
      ∧ dom r = list_to_set stored_fields.
Proof.
  intros patient. split; [reflexivity|].
  exact (create_then_fetch store_1 patient eq_refl).
Defined.

Lemma create_then_delete_witness :
  dict_get (Patient.id patient_P002) store_1 = None
  ∧ delete_patient (Patient.id patient_P002)
      (create_patient patient_P002 store_1).2
    = (Return (mkJSONResponse 200 "Patient deleted successfully"), store_1).
Proof.
  split; [reflexivity|].
  exact (create_then_delete store_1 patient_P002 eq_refl).
Defined.

Lemma create_twice_witness :
  Patient_validate (body_of patient_P002) = Some patient_P002
  ∧ dict_get (Patient.id patient_P002) store_1 = None
  ∧ post_create (body_of patient_P002)
      (post_create (body_of patient_P002) store_1).2
    = (Raise (HTTPException 400 "Patient already exists"),
       (post_create (body_of patient_P002) store_1).2).
Proof.
  split; [reflexivity|]. split; [reflexivity|].
  exact (create_twice store_1 (body_of patient_P002) patient_P002
           eq_refl eq_refl).
Defined.

Lemma update_patient_writes_six_fields_witness :
  let file' := [("P001", record_of patient_P001_80)] in
  let resp := mkJSONResponse 200 "Patient details updated successfully" in
  update_patient "P001" patch_weight_80 legacy_store = (Return resp, file')
  ∧ ∃ new : record,
      dict_get "P001" file' = Some new
      ∧ dom new = list_to_set stored_fields
      ∧ written_by_service new.
Proof.
  intros file' resp. split; [reflexivity|].
  exact (update_patient_writes_six_fields legacy_store file' "P001"
           patch_weight_80 resp eq_refl).
Defined.

Lemma update_patient_twice_witness :
  let file' :=
    [("P001", record_of patient_P001_80); ("P002", record_of patient_P002)] in
  let resp := mkJSONResponse 200 "Patient details updated successfully" in
  update_patient "P001" patch_weight_80 store_2 = (Return resp, file')
  ∧ update_patient "P001" patch_weight_80 file' = (Return resp, file').
Proof.
  intros file' resp. split; [reflexivity|].
  exact (update_patient_twice store_2 file' "P001" patch_weight_80 resp
           eq_refl).
Defined.

Lemma patient_P001_in_range : Patient_in_range patient_P001.
Proof. by split_and!. Defined.

Lemma update_patient_empty_patch_witness :
  dict_get "P001" store_2 = Some (list_to_map (stored_items patient_P001))
  ∧ Patient_in_range patient_P001
  ∧ update_patient "P001" empty_patch store_2
    = (Return (mkJSONResponse 200 "Patient details updated successfully"),
       store_2).
Proof.
  split; [reflexivity|]. split; [exact patient_P001_in_range|].
  exact (update_patient_empty_patch store_2 "P001" patient_P001 eq_refl
           patient_P001_in_range).
Defined.

Lemma update_patient_only_weight_witness :
  let old : record := list_to_map (stored_items patient_P001) in
  dict_get "P001" store_2 = Some old
  ∧ Patient_in_range patient_P001 ∧ (0 < Qc_of_Z 80)%Qc
  ∧ update_patient "P001" (only_weight (Qc_of_Z 80)) store_2
    = (Return (mkJSONResponse 200 "Patient details updated successfully"),
       dict_set "P001" (<["weight" := VNum (Qc_of_Z 80)]> old) store_2).
Proof.
  intros old. split; [reflexivity|]. split; [exact patient_P001_in_range|].
  assert (0 < Qc_of_Z 80)%Qc as Hw by reflexivity.
  split; [exact Hw|].
  exact (update_patient_only_weight store_2 "P001" patient_P001 (Qc_of_Z 80)
           eq_refl patient_P001_in_range Hw).
Defined.

Lemma put_edit_age_too_large_witness :
  dict_get "P001" store_2 = Some (record_of patient_P001)
  ∧ PatientUpdate_in_range patch_age_150 = true
  ∧ PatientUpdate.age patch_age_150 = Supplied (Some 150)
  ∧ 120 ≤ 150
  ∧ put_edit "P001" patch_age_150 store_2 = (Raise ValidationError, store_2).
Proof.
  assert (120 ≤ 150) as Ha by (intros H; discriminate H).
  split; [reflexivity|]. split; [reflexivity|]. split; [reflexivity|].
  split; [exact Ha|].
  exact (put_edit_age_too_large store_2 "P001" patch_age_150
           (record_of patient_P001) 150 eq_refl eq_refl eq_refl Ha).
Defined.

Lemma post_create_rejects_witness :
  post_create body_age_0 store_1 = (Raise RequestValidationError, store_1).
Proof.
  apply (post_create_rejects store_1 body_age_0).
  right. left. exists (Qc_of_Z 0). split; [reflexivity|].
  left. apply Qcle_refl.
Defined.

Lemma sort_patients_type_error_witness :
  sort_patients "height" "asc" mixed_store = (Raise TypeError, mixed_store).
Proof.
  apply (sort_patients_type_error mixed_store "height" "asc").
  - apply (bool_decide_unpack _). exact I.
  - apply (bool_decide_unpack _). exact I.
  - apply le_n.
  - exists tall_record. split; [|intros H; exact H].
    change (dict_values mixed_store)
      with [list_to_map (stored_items patient_P001) : record; tall_record].
    right. left.
  - exists (list_to_map (stored_items patient_P001)).
    split; [|intros H; exact H].
    change (dict_values mixed_store)
      with [list_to_map (stored_items patient_P001) : record; tall_record].
    left.
Defined.

Lemma sort_patients_missing_field_witness :
  sort_patients "bmi" "desc" store_3 = (Return (dict_values store_3), store_3).
Proof.
  apply (sort_patients_missing_field store_3 "bmi" "desc").
  - apply (bool_decide_unpack _). exact I.
  - apply (bool_decide_unpack _). exact I.
  - intros r Hr.
    change (dict_values store_3)
      with [record_of patient_P001; record_of patient_P002;
            record_of patient_P003] in Hr.
    repeat (apply elem_of_cons in Hr as [->|Hr]); try reflexivity.
    by apply elem_of_nil in Hr.
Defined.

Lemma reachable_from_empty_shape_witness :
  let file := (handle (Create (body_of patient_P001)) []).2 in
  let r := record_of patient_P001 in
  reachable [] file ∧ dict_get "P001" file = Some r
  ∧ written_by_service r
  ∧ dom r = list_to_set stored_fields
  ∧ r !! "bmi" = None ∧ r !! "verdict" = None ∧ r !! "id" = None.
Proof.
  intros file r.
  assert (reachable [] file) as Hreach
    by (apply reachable_step, reachable_here).
  split; [exact Hreach|]. split; [reflexivity|].
  exact (reachable_from_empty_shape file "P001" r Hreach eq_refl).
Defined.

Lemma sort_by_bmi_is_stored_order_witness :
  let file :=
    (handle (Create (body_of patient_P002))
       (handle (Create (body_of patient_P001)) []).2).2 in
  reachable [] file ∧ "desc" ∈ ["asc"; "desc"]
  ∧ sort_patients "bmi" "desc" file = (Return (dict_values file), file).
Proof.
  intros file.
  assert (reachable [] file) as Hreach
    by (do 2 apply reachable_step; apply reachable_here).
  assert ("desc" ∈ ["asc"; "desc"]) as Ho
    by (apply (bool_decide_unpack _); exact I).
  split; [exact Hreach|]. split; [exact Ho|].
  exact (sort_by_bmi_is_stored_order file "desc" Hreach Ho).
Defined.

Lemma update_patient_applies_patch_witness :
  update_patient "P001" patch_city_age store_2
  = (Return (mkJSONResponse 200 "Patient details updated successfully"),
     dict_set "P001"
       (list_to_map
          (stored_items (apply_patch "P001" patch_city_age patient_P001)))
       store_2).
Proof.
  apply (update_patient_applies_patch store_2 "P001" patch_city_age
           patient_P001).
  - reflexivity.
  - reflexivity.
  - by split_and!.
Defined.
